(** * cephadm SMB daemon form: container composition

    A shallow embedding of [src/cephadm/cephadmlib/daemons/smb.py] and the
    properties of its configuration model, role catalog, layout builder,
    network mapper and stub-config writer.

    Conventions of the embedding:
    - a Python [str] is a [string]; every character stands for one code point
      below 256;
    - a Python [int] is a [Z];
    - a Python [dict] whose iteration order is observed (environments, mounts)
      is an insertion-ordered association list ([Py.odict]); the host network
      inventory, which is only looked up by key, is a [gmap];
    - a Python [set] is a [gset]: its iteration order is whatever [elements]
      yields, and proofs only use membership;
    - methods that read or write attributes of the [SMB] object are
      computations in a state-and-exception monad over the [SMB] record. *)

From Stdlib Require Import ZArith Ascii DecimalString.
From stdpp Require Import gmap strings list.

Local Open Scope Z_scope.

(** ** Python built-ins used by the module *)

Module Py.

(** Truth value of a [str], an [int] and a [list]. *)
Definition str_bool (s : string) : bool :=
  match s with
  | EmptyString => false
  | String _ _ => true
  end.

Definition int_bool (n : Z) : bool := negb (n =? 0).

Definition list_bool {A} (l : list A) : bool :=
  match l with
  | [] => false
  | _ :: _ => true
  end.

(** [str.isspace] on one character: TAB..CR, FS..US, SPACE, NEL, NBSP. *)
Definition isspace (c : ascii) : bool :=
  let n := N_of_ascii c in
  ((9 <=? n) && (n <=? 13) || (28 <=? n) && (n <=? 32)
   || (n =? 133) || (n =? 160))%N.

Fixpoint lstrip (s : string) : string :=
  match s with
  | EmptyString => EmptyString
  | String c s' => if isspace c then lstrip s' else s
  end.

Fixpoint rstrip (s : string) : string :=
  match s with
  | EmptyString => EmptyString
  | String c s' =>
      match rstrip s' with
      | EmptyString => if isspace c then EmptyString else String c EmptyString
      | r => String c r
      end
  end.

(** [s.strip()] *)
Definition strip (s : string) : string := rstrip (lstrip s).

(** [sep.join(l)] *)
Fixpoint join (sep : string) (l : list string) : string :=
  match l with
  | [] => ""
  | [x] => x
  | x :: l' => x +:+ sep +:+ join sep l'
  end.

(** [str(n)] for an [int]. *)
Definition str (n : Z) : string := NilZero.string_of_int (Z.to_int n).

(** Insertion-ordered dictionaries with [str] keys. *)
Definition odict (V : Type) : Type := list (string * V).

Fixpoint setitem {V} (k : string) (v : V) (d : odict V) : odict V :=
  match d with
  | [] => [(k, v)]
  | (k', v') :: d' =>
      if decide (k = k') then (k', v) :: d' else (k', v') :: setitem k v d'
  end.

Fixpoint getitem {V} (k : string) (d : odict V) : option V :=
  match d with
  | [] => None
  | (k', v') :: d' => if decide (k = k') then Some v' else getitem k d'
  end.

Definition items {V} (d : odict V) : list (string * V) := d.

End Py.

(** ** [json.dumps] on the values the module serialises *)

Module Json.

#[warnings="-register-all"]
Inductive value : Type :=
| Str (s : string)
| Arr (l : list value)
| Obj (members : list (string * value)).

Definition dquote : ascii := "034"%char.
Definition backslash : ascii := "092"%char.

Definition hex_digit (n : N) : ascii :=
  if (n <? 10)%N then ascii_of_N (48 + n) else ascii_of_N (87 + n).

(** One character of [py_encode_basestring_ascii]. *)
Definition escape (c : ascii) : string :=
  let n := N_of_ascii c in
  if (n =? 34)%N then String backslash (String dquote "")
  else if (n =? 92)%N then String backslash (String backslash "")
  else if (n =? 10)%N then String backslash "n"
  else if (n =? 13)%N then String backslash "r"
  else if (n =? 9)%N then String backslash "t"
  else if (n =? 12)%N then String backslash "f"
  else if (n =? 8)%N then String backslash "b"
  else if ((32 <=? n) && (n <=? 126))%N then String c ""
  else String backslash
         ("u00" +:+ String (hex_digit (n / 16)) (String (hex_digit (n mod 16)) "")).

Fixpoint escape_all (s : string) : string :=
  match s with
  | EmptyString => ""
  | String c s' => escape c +:+ escape_all s'
  end.

Definition encode_str (s : string) : string :=
  String dquote (escape_all s +:+ String dquote "").

Fixpoint dumps (v : value) : string :=
  match v with
  | Str s => encode_str s
  | Arr l => "[" +:+ Py.join ", " (map dumps l) +:+ "]"
  | Obj ms =>
      "{" +:+ Py.join ", "
                (map (fun kv => encode_str (fst kv) +:+ ": " +:+ dumps (snd kv)) ms)
          +:+ "}"
  end.

Definition of_strs (l : list string) : value := Arr (map Str l).

(** [obj[k]] on a decoded object. *)
Definition member (k : string) (v : value) : option value :=
  match v with
  | Obj ms => Py.getitem k ms
  | _ => None
  end.

End Json.

(** ** Data model *)

(** The attributes of [DaemonIdentity] that the module reads. *)
Module DaemonIdentity.
Record t : Type := mk {
  daemon_type : string;
  daemon_name : string;
  container_name : string;
  data_dir : string -> string;
}.
End DaemonIdentity.

(** [DaemonSubIdentity.from_parent (parent, subcomponent)]. *)
Record DaemonSubIdentity : Type := from_parent {
  parent : DaemonIdentity.t;
  subcomponent : string;
}.

Module Features.
Definition DOMAIN : string := "domain".
Definition CLUSTERED : string := "clustered".

(** [cls(value)] succeeds exactly on the values of the enumeration. *)
Definition valid (value : string) : bool :=
  bool_decide (value = DOMAIN) || bool_decide (value = CLUSTERED).
End Features.

Record ClusterPublicIP : Type := mkClusterPublicIP {
  address : string;
  destinations : list string;
}.

Record Config : Type := mkConfig {
  identity : DaemonIdentity.t;
  instance_id : string;
  source_config : string;
  domain_member : bool;
  clustered : bool;
  samba_debug_level : Z;
  ctdb_log_level : string;
  debug_delay : Z;
  join_sources : list string;
  user_sources : list string;
  custom_dns : list string;
  smb_port : Z;
  ceph_config_entity : string;
  vhostname : string;
  metrics_image : string;
  metrics_port : Z;
  rank : Z;
  rank_generation : Z;
  cluster_meta_uri : string;
  cluster_lock_uri : string;
  cluster_public_addrs : list ClusterPublicIP;
}.

Definition _SCC : string := "/usr/bin/samba-container".
Definition _NODES_SUBCMD : list string := [_SCC; "ctdb-list-nodes"].
Definition _MUTEX_SUBCMD : list string := [_SCC; "ctdb-rados-mutex"].

(** [Config.config_uris]; [user_sources or []] is [user_sources] itself for a
    list. *)
Definition config_uris (self : Config) : list string :=
  let uris := [source_config self] in
  let uris := uris ++ user_sources self in
  if clustered self then uris ++ ["/etc/samba/container/ctdb.json"] else uris.

Definition _container_dns_args (cfg : Config) : list string :=
  let cargs := foldl (fun cargs dns => cargs ++ ["--dns=" +:+ dns]) [] (custom_dns cfg) in
  if Py.str_bool (vhostname cfg)
  then cargs ++ ["--hostname=" +:+ vhostname cfg]
  else cargs.

(** ** Role catalog *)

(** The concrete container classes. *)
Inductive RoleClass : Type :=
| SMBDContainer
| WinbindContainer
| ConfigInitContainer
| MustJoinContainer
| ConfigWatchContainer
| SMBMetricsContainer
| CTDBMigrateInitContainer
| CTDBMustHaveNodeInitContainer
| CTDBDaemonContainer
| CTDBNodeMonitorContainer.

Definition all_roles : list RoleClass :=
  [SMBDContainer; WinbindContainer; ConfigInitContainer; MustJoinContainer;
   ConfigWatchContainer; SMBMetricsContainer; CTDBMigrateInitContainer;
   CTDBMustHaveNodeInitContainer; CTDBDaemonContainer;
   CTDBNodeMonitorContainer].

(** The classes they derive from. *)
Inductive BaseClass : Type :=
| ContainerCommon
| SambaContainerCommon
| SambaNetworkedInitContainer.

Definition base (c : RoleClass) : BaseClass :=
  match c with
  | SMBMetricsContainer => ContainerCommon
  | MustJoinContainer => SambaNetworkedInitContainer
  | _ => SambaContainerCommon
  end.

(** [isinstance(_, SambaContainerCommon)] *)
Definition is_samba_container (c : RoleClass) : bool :=
  match base c with
  | ContainerCommon => false
  | SambaContainerCommon | SambaNetworkedInitContainer => true
  end.

(** An instance: its class and the two attributes set by [__init__]. *)
Record Container : Type := mkContainer {
  cls : RoleClass;
  cfg : Config;
  image : string;
}.

(** [C(cfg)] and [C(cfg, image)] *)
Definition new (c : RoleClass) (cf : Config) : Container := mkContainer c cf "".
Definition new_with_image (c : RoleClass) (cf : Config) (img : string) : Container :=
  mkContainer c cf img.

Module ContainerCommon_.
Definition envs (self : Container) : Py.odict string := [].
Definition envs_list (self : Container) : list string := [].
Definition args (self : Container) : list string := [].
Definition container_args (self : Container) : list string := [].
Definition container_image (self : Container) : string := image self.
End ContainerCommon_.

Module SambaContainerCommon_.

Definition envs (self : Container) : Py.odict string :=
  let environ :=
    [("SAMBA_CONTAINER_ID", instance_id (cfg self));
     ("SAMBACC_CONFIG", Json.dumps (Json.of_strs (config_uris (cfg self))))] in
  let environ := Py.setitem "SAMBACC_CTDB" "ctdb-is-experimental" environ in
  let environ :=
    if Py.str_bool (ceph_config_entity (cfg self))
    then Py.setitem "SAMBACC_CEPH_ID" ("name=" +:+ ceph_config_entity (cfg self)) environ
    else environ in
  if rank (cfg self) >=? 0 then
    let environ := Py.setitem "RANK" (Py.str (rank (cfg self))) environ in
    let environ := Py.setitem "RANK_GENERATION" (Py.str (rank (cfg self))) environ in
    match Py.getitem "RANK" environ with
    | Some r => Py.setitem "NODE_NUMBER" r environ
    | None => environ (* KeyError: RANK has just been set *)
    end
  else environ.

Definition envs_list (self : Container) : list string :=
  map (fun kv => fst kv +:+ "=" +:+ snd kv) (Py.items (envs self)).

Definition args (self : Container) : list string :=
  let args := [] in
  let args :=
    if Py.int_bool (samba_debug_level (cfg self))
    then args ++ ["--samba-debug-level=" +:+ Py.str (samba_debug_level (cfg self))]
    else args in
  if Py.int_bool (debug_delay (cfg self))
  then args ++ ["--debug-delay=" +:+ Py.str (debug_delay (cfg self))]
  else args.

End SambaContainerCommon_.

Module SambaNetworkedInitContainer_.
Definition container_args (self : Container) : list string :=
  let cargs := _container_dns_args (cfg self) in
  if clustered (cfg self) then cargs ++ ["--network=host"] else cargs.
End SambaNetworkedInitContainer_.

(** Method resolution over the class hierarchy. *)

Definition name (self : Container) : string :=
  match cls self with
  | SMBDContainer => "smbd"
  | WinbindContainer => "winbindd"
  | ConfigInitContainer => "config"
  | MustJoinContainer => "mustjoin"
  | ConfigWatchContainer => "configwatch"
  | SMBMetricsContainer => "smbmetrics"
  | CTDBMigrateInitContainer => "ctdbMigrate"
  | CTDBMustHaveNodeInitContainer => "ctdbMustHaveNode"
  | CTDBDaemonContainer => "ctdbd"
  | CTDBNodeMonitorContainer => "ctdbNodes"
  end.

Definition envs (self : Container) : Py.odict string :=
  match base (cls self) with
  | ContainerCommon => ContainerCommon_.envs self
  | SambaContainerCommon | SambaNetworkedInitContainer => SambaContainerCommon_.envs self
  end.

Definition envs_list (self : Container) : list string :=
  match base (cls self) with
  | ContainerCommon => ContainerCommon_.envs_list self
  | SambaContainerCommon | SambaNetworkedInitContainer =>
      SambaContainerCommon_.envs_list self
  end.

Definition args (self : Container) : list string :=
  let c := cfg self in
  match cls self with
  | SMBDContainer =>
      let args := SambaContainerCommon_.args self in
      let args := args ++ ["run"] in
      let args :=
        if clustered c then
          let auth_kind := if domain_member c then "nsswitch" else "users" in
          args ++ ["--setup=" +:+ auth_kind] ++ ["--setup=smb_ctdb"] ++ ["--wait-for=ctdb"]
        else args in
      args ++ ["smbd"]
  | WinbindContainer =>
      let args := SambaContainerCommon_.args self in
      let args := args ++ ["run"] in
      let args :=
        if clustered c then args ++ ["--setup=smb_ctdb"] ++ ["--wait-for=ctdb"]
        else args in
      args ++ ["winbindd"]
  | ConfigInitContainer => SambaContainerCommon_.args self ++ ["init"]
  | MustJoinContainer =>
      let args := SambaContainerCommon_.args self in
      let args :=
        if clustered c then args ++ ["--skip-if=env:NODE_NUMBER!=0"] else args in
      let args := args ++ ["must-join"] in
      foldl (fun args join_src => args ++ ["-j" +:+ join_src]) args (join_sources c)
  | ConfigWatchContainer =>
      SambaContainerCommon_.args self ++ ["update-config"; "--watch"]
  | SMBMetricsContainer =>
      if metrics_port c >? 0 then ["--port=" +:+ Py.str (metrics_port c)] else []
  | CTDBMigrateInitContainer =>
      SambaContainerCommon_.args self ++
        ["--skip-if=env:NODE_NUMBER!=0"; "ctdb-migrate";
         "--dest-dir=/var/lib/ctdb/persistent";
         "--archive=/var/lib/samba/.migrated"]
  | CTDBMustHaveNodeInitContainer =>
      let unique_name := DaemonIdentity.daemon_name (identity c) in
      SambaContainerCommon_.args self ++
        ["ctdb-must-have-node"; "--hostname=" +:+ unique_name;
         "--take-node-number-from-env"]
  | CTDBDaemonContainer =>
      SambaContainerCommon_.args self ++
        ["run"; "ctdbd"; "--setup=smb_ctdb"; "--setup=ctdb_config"; "--setup=ctdb_etc"]
  | CTDBNodeMonitorContainer =>
      let unique_name := DaemonIdentity.daemon_name (identity c) in
      SambaContainerCommon_.args self ++
        ["--debug"; "ctdb-monitor-nodes"; "--hostname=" +:+ unique_name;
         "--take-node-number-from-env"; "--reload=all"]
  end.

Definition container_args (self : Container) : list string :=
  let c := cfg self in
  match cls self with
  | SMBDContainer =>
      let cargs := [] in
      let cargs :=
        if Py.int_bool (smb_port c)
        then cargs ++ ["--publish=" +:+ Py.str (smb_port c) +:+ ":" +:+ Py.str (smb_port c)]
        else cargs in
      let cargs :=
        if Py.int_bool (metrics_port c)
        then
          let metrics_port := metrics_port c in
          cargs ++ ["--publish=" +:+ Py.str metrics_port +:+ ":" +:+ Py.str metrics_port]
        else cargs in
      cargs ++ _container_dns_args c
  | MustJoinContainer => SambaNetworkedInitContainer_.container_args self
  | CTDBDaemonContainer =>
      let cargs := ContainerCommon_.container_args self in
      cargs ++ ["--cap-add=NET_ADMIN"] ++ ["--cap-add=NET_RAW"]
  | _ => ContainerCommon_.container_args self
  end.

Definition container_image (self : Container) : string :=
  ContainerCommon_.container_image self.

(** ** Layout *)

Record ContainerLayout : Type := mkContainerLayout {
  init_containers : list Container;
  primary : Container;
  supplemental : list Container;
}.

(** The body of [SMB._layout] below the cache test, for the validated
    configuration [c]. *)
Definition build_layout (c : Config) : ContainerLayout :=
  let init_ctrs : list Container := [] in
  let ctrs : list Container := [] in
  let init_ctrs := init_ctrs ++ [new ConfigInitContainer c] in
  let ctrs := ctrs ++ [new ConfigWatchContainer c] in
  let '(init_ctrs, ctrs) :=
    if domain_member c
    then (init_ctrs ++ [new MustJoinContainer c], ctrs ++ [new WinbindContainer c])
    else (init_ctrs, ctrs) in
  let metrics_image := Py.strip (metrics_image c) in
  let metrics_port := metrics_port c in
  let ctrs :=
    if Py.str_bool metrics_image && (metrics_port >? 0)
    then ctrs ++ [new_with_image SMBMetricsContainer c metrics_image]
    else ctrs in
  let '(init_ctrs, ctrs) :=
    if clustered c
    then (init_ctrs ++ [new CTDBMigrateInitContainer c;
                        new CTDBMustHaveNodeInitContainer c],
          ctrs ++ [new CTDBDaemonContainer c; new CTDBNodeMonitorContainer c])
    else (init_ctrs, ctrs) in
  let smbd := new SMBDContainer c in
  mkContainerLayout init_ctrs smbd ctrs.

(** ** Collaborators *)

(** [pathlib.Path]: a starting string and the children joined to it with [/]. *)
Inductive Path : Type :=
| PathOf (s : string)
| Div (p : Path) (child : string).

(** [str(path)], for a starting string without a trailing separator. *)
Fixpoint path_str (p : Path) : string :=
  match p with
  | PathOf s => s
  | Div p' child => path_str p' +:+ "/" +:+ child
  end.

Inductive Namespace : Type := ipc | network | pid | uts.

(** The container engine of the context; Podman carries its [update_mounts]. *)
Inductive ContainerEngine : Type :=
| Podman (update_mounts : Py.odict string -> Py.odict string)
| Docker.

(** What the module reads through a [CephadmContext]: the image and data
    directory, the engine, and the two host facts it queries
    ([list_networks(ctx)] and [socket.getfqdn()]). *)
Record CephadmContext : Type := {
  ctx_image : string;
  ctx_data_dir : string;
  container_engine : ContainerEngine;
  list_networks : gmap string (list string);
  getfqdn : string;
}.

Record EndPoint : Type := mkEndPoint {
  ip : string;
  port : Z;
}.

(** A float, as far as [int()] observes it: its integral part when it is
    finite. *)
Inductive pyfloat : Type :=
| finite (integral : Z)
| infinity
| nan.

(** An untyped value of the raw configuration.  The lists of the raw
    configuration hold strings. *)
#[warnings="-register-all"]
Inductive PyVal : Type :=
| PyNone
| PyBool (b : bool)
| PyInt (n : Z)
| PyFloat (f : pyfloat)
| PyStr (s : string)
| PyStrList (l : list string)
| PyDict (d : list (string * PyVal)).

(** The raw configuration record, a field per key it is asked for; [None] is
    an absent key.  [metrics_port] and the public address records are
    untyped: the former goes through [int()], the latter through
    [ClusterPublicIP.convert]. *)
Module RawConfigs.
Record t : Type := mk {
  cluster_id : option string;
  config_uri : option string;
  join_sources : option (list string);
  user_sources : option (list string);
  custom_dns : option (list string);
  features : option (list string);
  files : option (Py.odict string);
  config_auth_entity : option string;
  virtual_hostname : option string;
  metrics_image : option string;
  metrics_port : option PyVal;
  cluster_meta_uri : option string;
  cluster_lock_uri : option string;
  cluster_public_addrs : option (list PyVal);
}.
End RawConfigs.

(** [configs.get(key, dflt)] *)
Definition get {A} (field : option A) (dflt : A) : A := default dflt field.

(** ** Network mapper *)

Module _NetworkMapper.

Record t : Type := mk {
  _ctx : CephadmContext;
  _networks : gmap string (list string);
}.

Definition __init__ (ctx : CephadmContext) : t := mk ctx ∅.

Definition load (self : t) : t := mk (_ctx self) (list_networks (_ctx self)).

(** The two nested loops of [_convert]; the log calls are not modelled. *)
Definition _convert (self : t) (addr : ClusterPublicIP) : ClusterPublicIP :=
  let devs :=
    foldl (fun devs net =>
             match _networks self !! net with
             | None => devs
             | Some on_net => foldl (fun devs dev => devs ++ [dev]) devs on_net
             end)
          [] (destinations addr) in
  mkClusterPublicIP (address addr) devs.

Definition for_sambacc (self : t) (cfg : Config) : list Json.value :=
  if negb (Py.list_bool (cluster_public_addrs cfg)) then []
  else
    let addrs := map (_convert self) (cluster_public_addrs cfg) in
    map (fun a => Json.Obj [("address", Json.Str (address a));
                            ("interfaces", Json.of_strs (destinations a))])
        addrs.

End _NetworkMapper.

(** ** State and exceptions *)

(** [exceptions.Error] and the built-in [AssertionError]. *)
Inductive exn : Type :=
| Error (msg : string)
| AssertionError
| ValueError
| TypeError
| OverflowError
| KeyError (key : string).

Inductive result (A : Type) : Type :=
| Ok (a : A)
| Raise (e : exn).
Arguments Ok {A} a.
Arguments Raise {A} e.

Definition M (S A : Type) : Type := S -> result (A * S).

Definition ret {S A} (a : A) : M S A := fun s => Ok (a, s).

Definition bind {S A B} (m : M S A) (k : A -> M S B) : M S B :=
  fun s =>
    match m s with
    | Ok (a, s') => k a s'
    | Raise e => Raise e
    end.

Definition raise {S A} (e : exn) : M S A := fun _ => Raise e.
Definition read {S} : M S S := fun s => Ok (s, s).
Definition write {S} (s : S) : M S unit := fun _ => Ok (tt, s).

Notation "'do' x <- m ; k" := (bind m (fun x => k))
  (at level 10, x pattern, m at level 100, k at level 200).
Notation "'run' m ; k" := (bind m (fun _ => k))
  (at level 10, m at level 100, k at level 200).

(** ** Conversions of raw values *)

(** A computation that only returns or raises. *)
Definition lift {S A} (r : result A) : M S A :=
  fun s =>
    match r with
    | Ok a => Ok (a, s)
    | Raise e => Raise e
    end.

(** A list comprehension over a function that may raise. *)
Fixpoint for_result {A B} (f : A -> result B) (l : list A) : result (list B) :=
  match l with
  | [] => Ok []
  | x :: l' =>
      match f x with
      | Raise e => Raise e
      | Ok y =>
          match for_result f l' with
          | Raise e => Raise e
          | Ok ys => Ok (y :: ys)
          end
      end
  end.

Module Int.

(** The white space [int()] skips around a number: TAB..CR and SPACE, and
    NEL and NBSP, which it first turns into spaces. *)
Definition space (c : ascii) : bool :=
  let n := N_of_ascii c in
  ((9 <=? n) && (n <=? 13) || (n =? 32) || (n =? 133) || (n =? 160))%N.

Fixpoint lskip (s : string) : string :=
  match s with
  | EmptyString => EmptyString
  | String c s' => if space c then lskip s' else s
  end.

Fixpoint rskip (s : string) : string :=
  match s with
  | EmptyString => EmptyString
  | String c s' =>
      match rskip s' with
      | EmptyString => if space c then EmptyString else String c EmptyString
      | r => String c r
      end
  end.

Definition digit (c : ascii) : option Z :=
  let n := N_of_ascii c in
  if ((48 <=? n) && (n <=? 57))%N then Some (Z.of_N n - 48) else None.

(** Decimal digits, single underscores allowed between two of them: the
    value read after [acc] and the number of digits. *)
Fixpoint digits (s : string) (acc : Z) (count : N) : option (Z * N) :=
  match s with
  | EmptyString => None
  | String c s' =>
      match digit c with
      | None => None
      | Some d =>
          let acc := acc * 10 + d in
          let count := (count + 1)%N in
          match s' with
          | EmptyString => Some (acc, count)
          | String u s'' =>
              if (N_of_ascii u =? 95)%N then digits s'' acc count
              else digits s' acc count
          end
      end
  end.

(** The default limit on the digits of a converted string. *)
Definition max_str_digits : N := 4300.

(** [int(s)] for a [str]: [None] is [ValueError]. *)
Definition of_str (s : string) : option Z :=
  let body := rskip (lskip s) in
  let '(negative, body) :=
    match body with
    | String c rest =>
        if (N_of_ascii c =? 45)%N then (true, rest)
        else if (N_of_ascii c =? 43)%N then (false, rest)
        else (false, body)
    | EmptyString => (false, body)
    end in
  match digits body 0 0 with
  | None => None
  | Some (v, count) =>
      if (max_str_digits <? count)%N then None
      else Some (if negative then - v else v)
  end.

(** [int(v)] *)
Definition int (v : PyVal) : result Z :=
  match v with
  | PyInt n => Ok n
  | PyBool b => Ok (if b then 1 else 0)
  | PyFloat (finite n) => Ok n
  | PyFloat infinity => Raise OverflowError
  | PyFloat nan => Raise ValueError
  | PyStr s =>
      match of_str s with
      | Some n => Ok n
      | None => Raise ValueError
      end
  | PyNone | PyStrList _ | PyDict _ => Raise TypeError
  end.

End Int.

(** [ClusterPublicIP.convert]: the assertions and the two subscripts. *)
Definition convert (item : PyVal) : result ClusterPublicIP :=
  match item with
  | PyDict d =>
      match Py.getitem "address" d with
      | None => Raise (KeyError "address")
      | Some address =>
          match address with
          | PyStr address =>
              match Py.getitem "destinations" d with
              | None => Raise (KeyError "destinations")
              | Some destinations =>
                  match destinations with
                  | PyStrList destinations =>
                      Ok (mkClusterPublicIP address destinations)
                  | _ => Raise AssertionError
                  end
              end
          | _ => Raise AssertionError
          end
      end
  | _ => Raise AssertionError
  end.

(** ** The version pattern *)

(** [re.search(r'Version\s*([\d.]+)', out)] and [match.group(1)].  The
    classes [\s] and [[\d.]] share no character, so giving back white space
    never helps: at a position the pattern matches exactly when [Version] is
    followed by any run of white space and then at least one digit or dot,
    and the group is the longest such run.  The search tries the positions
    from left to right. *)
Module Re.

(** [[\d.]] on code points below 256. *)
Definition version_char (c : ascii) : bool :=
  let n := N_of_ascii c in
  ((48 <=? n) && (n <=? 57) || (n =? 46))%N.

Fixpoint take_while (p : ascii -> bool) (s : string) : string :=
  match s with
  | EmptyString => EmptyString
  | String c s' => if p c then String c (take_while p s') else EmptyString
  end.

Fixpoint drop_prefix (t s : string) : option string :=
  match t, s with
  | EmptyString, _ => Some s
  | String a t', String b s' =>
      if bool_decide (a = b) then drop_prefix t' s' else None
  | String _ _, EmptyString => None
  end.

(** The pattern anchored at the start of [s]; the result is group 1. *)
Definition match_here (s : string) : option string :=
  match drop_prefix "Version" s with
  | None => None
  | Some rest =>
      match take_while version_char (Py.lstrip rest) with
      | EmptyString => None
      | String c v => Some (String c v)
      end
  end.

Fixpoint search (s : string) : option string :=
  match match_here s with
  | Some v => Some v
  | None =>
      match s with
      | EmptyString => None
      | String _ s' => search s'
      end
  end.

End Re.

(** ** The daemon form *)

Module SMB.

Record t : Type := mk {
  _identity : DaemonIdentity.t;
  _instance_cfg : option Config;
  _files : Py.odict string;
  _raw_configs : RawConfigs.t;
  _config_keyring : option string * option string;
  _cached_layout : option ContainerLayout;
  _rank_info : Z * Z;
  smb_port : Z;
  metrics_port : Z;
  _network_mapper : _NetworkMapper.t;
}.

Definition daemon_type : string := "smb".
Definition daemon_base : string := "/usr/sbin/smbd".

Definition for_daemon_type (daemon_type0 : string) : bool :=
  bool_decide (daemon_type = daemon_type0).

(** [SMB(ctx, ident)], given what the three context getters return: the
    attribute assignments, then the constructor with its assertion. *)
Definition attributes (ctx : CephadmContext) (ident : DaemonIdentity.t)
    (fetch_configs : RawConfigs.t)
    (get_config_and_keyring : option string * option string)
    (fetch_rank_info : option (Z * Z)) : t :=
  mk ident None [] fetch_configs get_config_and_keyring None
     (default (-1, -1) fetch_rank_info) 445 9922 (_NetworkMapper.__init__ ctx).

Definition __init__ (ctx : CephadmContext) (ident : DaemonIdentity.t)
    (fetch_configs : RawConfigs.t)
    (get_config_and_keyring : option string * option string)
    (fetch_rank_info : option (Z * Z)) : result t :=
  if bool_decide (DaemonIdentity.daemon_type ident = daemon_type)
  then Ok (attributes ctx ident fetch_configs get_config_and_keyring
             fetch_rank_info)
  else Raise AssertionError.

(** [SMB.create] *)
Definition create (ctx : CephadmContext) (ident : DaemonIdentity.t)
    (fetch_configs : RawConfigs.t)
    (get_config_and_keyring : option string * option string)
    (fetch_rank_info : option (Z * Z)) : result t :=
  __init__ ctx ident fetch_configs get_config_and_keyring fetch_rank_info.

(** [get_version], given the output and the exit code of the probe
    [<engine> exec <container> /usr/sbin/smbd -V]. *)
Definition get_version (out : string) (ret : Z) : option string :=
  let version := None in
  if ret =? 0 then
    match Re.search out with
    | Some group1 => Some group1
    | None => version
    end
  else version.

Definition uid_gid (self : t) : Z * Z := (0, 0).

Definition config_and_keyring (self : t) : option string * option string :=
  _config_keyring self.

Definition set_validated (c : Config) (fs : Py.odict string)
    (nm : _NetworkMapper.t) (self : t) : t :=
  mk (_identity self) (Some c) fs (_raw_configs self) (_config_keyring self)
     (_cached_layout self) (_rank_info self) (smb_port self) (metrics_port self) nm.

Definition set_cached_layout (l : ContainerLayout) (self : t) : t :=
  mk (_identity self) (_instance_cfg self) (_files self) (_raw_configs self)
     (_config_keyring self) (Some l) (_rank_info self) (smb_port self)
     (metrics_port self) (_network_mapper self).

(** The set comprehension of [validate]. *)
Definition invalid_features_of (instance_features : list string) : gset string :=
  list_to_set (filter (fun f => negb (Features.valid f)) instance_features).

Definition validate : M t unit :=
  do self <- read;
  match _instance_cfg self with
  | Some _ => ret tt
  | None =>
      let configs := _raw_configs self in
      let instance_id := get (RawConfigs.cluster_id configs) "" in
      let source_config := get (RawConfigs.config_uri configs) "" in
      let join_sources := get (RawConfigs.join_sources configs) [] in
      let user_sources := get (RawConfigs.user_sources configs) [] in
      let custom_dns := get (RawConfigs.custom_dns configs) [] in
      let instance_features := get (RawConfigs.features configs) [] in
      let files := get (RawConfigs.files configs) [] in
      let ceph_config_entity := get (RawConfigs.config_auth_entity configs) "" in
      let vhostname := get (RawConfigs.virtual_hostname configs) "" in
      let metrics_image := get (RawConfigs.metrics_image configs) "" in
      do metrics_port <-
        lift (Int.int (get (RawConfigs.metrics_port configs) (PyStr "0")));
      let cluster_meta_uri := get (RawConfigs.cluster_meta_uri configs) "" in
      let cluster_lock_uri := get (RawConfigs.cluster_lock_uri configs) "" in
      let cluster_public_addrs :=
        get (RawConfigs.cluster_public_addrs configs) [] in
      if negb (Py.str_bool instance_id)
      then raise (Error "invalid instance (cluster) id")
      else if negb (Py.str_bool source_config)
      then raise (Error "invalid configuration source uri")
      else
        let invalid_features := invalid_features_of instance_features in
        if Py.list_bool (elements invalid_features)
        then raise (Error ("invalid instance features: "
                           +:+ Py.join ", " (elements invalid_features)))
        else
          let vhostname :=
            if negb (Py.str_bool vhostname)
            then
              let hname := getfqdn (_NetworkMapper._ctx (_network_mapper self)) in
              instance_id +:+ "-" +:+ hname
            else vhostname in
          do _public_addrs <- lift (for_result convert cluster_public_addrs);
          let mapper :=
            if Py.list_bool _public_addrs
            then _NetworkMapper.load (_network_mapper self)
            else _network_mapper self in
          let '(rank, rank_gen) := _rank_info self in
          write
            (set_validated
               (mkConfig (_identity self) instance_id source_config
                  (bool_decide (Features.DOMAIN ∈ instance_features))
                  (bool_decide (Features.CLUSTERED ∈ instance_features))
                  0 "" 0 join_sources user_sources custom_dns (smb_port self)
                  ceph_config_entity vhostname metrics_image metrics_port
                  rank rank_gen cluster_meta_uri cluster_lock_uri _public_addrs)
               files mapper self)
  end.

(** The [_cfg] property. *)
Definition _cfg : M t Config :=
  run validate;
  do self <- read;
  match _instance_cfg self with
  | Some c => ret c
  | None => raise AssertionError
  end.

Definition instance_id : M t string := do c <- _cfg; ret (instance_id c).
Definition source_config : M t string := do c <- _cfg; ret (source_config c).

Definition _layout : M t ContainerLayout :=
  do self <- read;
  match _cached_layout self with
  | Some l => ret l
  | None =>
      do c <- _cfg;
      let l := build_layout c in
      do self <- read;
      run write (set_cached_layout l self);
      ret l
  end.

(** [customize_container_envs], [customize_process_args] and
    [customize_container_args]: the caller's list after the call. *)
Definition customize_container_envs (envs : list string) : M t (list string) :=
  do clayout <- _layout;
  ret (envs ++ envs_list (primary clayout)).

Definition customize_process_args (args0 : list string) : M t (list string) :=
  do clayout <- _layout;
  ret (args0 ++ args (primary clayout)).

Definition customize_container_args (args0 : list string) : M t (list string) :=
  do clayout <- _layout;
  ret (args0 ++ container_args (primary clayout)).

(** [customize_container_mounts]: the caller's mapping after the call. *)
Definition customize_container_mounts (ctx : CephadmContext)
    (mounts : Py.odict string) : M t (Py.odict string) :=
  run validate;
  do self <- read;
  let data_dir := PathOf (DaemonIdentity.data_dir (_identity self) (ctx_data_dir ctx)) in
  let etc_samba_ctr := path_str (Div data_dir "etc-samba-container") in
  let lib_samba := path_str (Div data_dir "lib-samba") in
  let run_samba := path_str (Div data_dir "run") in
  let config := path_str (Div data_dir "config") in
  let keyring := path_str (Div data_dir "keyring") in
  let mounts := Py.setitem etc_samba_ctr "/etc/samba/container:z" mounts in
  let mounts := Py.setitem lib_samba "/var/lib/samba:z" mounts in
  let mounts := Py.setitem run_samba "/run:z" mounts in
  let mounts := Py.setitem config "/etc/ceph/ceph.conf:z" mounts in
  let mounts := Py.setitem keyring "/etc/ceph/keyring:z" mounts in
  do c <- _cfg;
  if clustered c then
    let ctdb_persistent := path_str (Div data_dir "ctdb/persistent") in
    let ctdb_run := path_str (Div data_dir "ctdb/run") in
    let ctdb_volatile := path_str (Div data_dir "ctdb/volatile") in
    let ctdb_etc := path_str (Div data_dir "ctdb/etc") in
    let mounts := Py.setitem ctdb_persistent "/var/lib/ctdb/persistent:z" mounts in
    let mounts := Py.setitem ctdb_run "/var/run/ctdb:z" mounts in
    let mounts := Py.setitem ctdb_volatile "/var/lib/ctdb/volatile:z" mounts in
    let mounts := Py.setitem ctdb_etc "/etc/ctdb:z" mounts in
    let ctdb_smb_conf := path_str (Div data_dir "ctdb/smb.conf") in
    ret (Py.setitem ctdb_smb_conf "/etc/samba/smb.conf:z" mounts)
  else ret mounts.

(** [customize_container_endpoints]: the caller's list after the call (the
    deployment type is not read). *)
Definition customize_container_endpoints (self : t)
    (endpoints : list EndPoint) : list EndPoint :=
  let endpoints :=
    if negb (existsb (fun ep => port ep =? smb_port self) endpoints)
    then endpoints ++ [mkEndPoint "0.0.0.0" (smb_port self)]
    else endpoints in
  if metrics_port self >? 0 then
    if negb (existsb (fun ep => port ep =? metrics_port self) endpoints)
    then endpoints ++ [mkEndPoint "0.0.0.0" (metrics_port self)]
    else endpoints
  else endpoints.

(** The dictionary serialised by [_write_ctdb_stub_config]. *)
Definition ctdb_stub_config (self : t) (c : Config) : Json.value :=
  let reclock_cmd := Py.join " " (_MUTEX_SUBCMD ++ [cluster_lock_uri c]) in
  let nodes_cmd := Py.join " " _NODES_SUBCMD in
  let ctdb :=
    [("recovery_lock", Json.Str ("!" +:+ reclock_cmd));
     ("cluster_meta_uri", Json.Str (cluster_meta_uri c));
     ("nodes_cmd", Json.Str nodes_cmd);
     ("public_addresses",
      Json.Arr (_NetworkMapper.for_sambacc (_network_mapper self) c))] in
  let ctdb :=
    if Py.str_bool (ctdb_log_level c)
    then Py.setitem "log_level" (Json.Str (ctdb_log_level c)) ctdb
    else ctdb in
  Json.Obj [("samba-container-config", Json.Str "v0"); ("ctdb", Json.Obj ctdb)].

(** Effects on the file system, in the order they are issued. *)
Inductive FsOp : Type :=
| makedirs (dir : Path) (uid gid mode : Z)
| populate_files (data_dir : string) (files : Py.odict string) (uid gid : Z)
| write_new (path : Path) (content : string).

Definition _write_ctdb_stub_config (path : Path) : M t (list FsOp) :=
  do c <- _cfg;
  do self <- read;
  ret [write_new path (Json.dumps (ctdb_stub_config self c))].

(** The mode [0o770]. *)
Definition mode_0770 : Z := 504.

Definition newline : string := String "010"%char "".

Definition _write_smb_conf_stub (path : Path) : M t (list FsOp) :=
  let _lines := ["[global]"; "config backend = registry"] in
  ret [write_new path (foldl (fun fh line => fh +:+ line +:+ newline) "" _lines)].

Definition prepare_data_dir (data_dir : string) (uid gid : Z) : M t (list FsOp) :=
  run validate;
  let ddir := PathOf data_dir in
  let etc_samba_ctr := Div ddir "etc-samba-container" in
  let ops :=
    [makedirs etc_samba_ctr uid gid mode_0770;
     makedirs (Div ddir "lib-samba") uid gid mode_0770;
     makedirs (Div ddir "run") uid gid mode_0770] in
  do self <- read;
  let ops :=
    if Py.list_bool (_files self)
    then ops ++ [populate_files data_dir (_files self) uid gid]
    else ops in
  do c <- _cfg;
  if clustered c then
    let ops :=
      ops ++ [makedirs (Div ddir "ctdb/persistent") uid gid mode_0770;
              makedirs (Div ddir "ctdb/run") uid gid mode_0770;
              makedirs (Div ddir "ctdb/volatile") uid gid mode_0770;
              makedirs (Div ddir "ctdb/etc") uid gid mode_0770] in
    do w1 <- _write_ctdb_stub_config (Div etc_samba_ctr "ctdb.json");
    do w2 <- _write_smb_conf_stub (Div ddir "ctdb/smb.conf");
    ret (ops ++ w1 ++ w2)
  else ret ops.

(** The keyword arguments handed to [InitContainer] and [SidecarContainer]. *)
Record InitContainer : Type := {
  ic_entrypoint : string;
  ic_image : string;
  ic_identity : DaemonSubIdentity;
  ic_args : list string;
  ic_container_args : list string;
  ic_envs : list string;
  ic_volume_mounts : Py.odict string;
}.

Record SidecarContainer : Type := {
  sc_entrypoint : string;
  sc_image : string;
  sc_identity : DaemonSubIdentity;
  sc_container_args : list string;
  sc_args : list string;
  sc_envs : list string;
  sc_volume_mounts : Py.odict string;
  sc_init : bool;
  sc_remove : bool;
}.

(** [a or b] on strings. *)
Definition str_or (a b : string) : string := if Py.str_bool a then a else b.

Section Composer.

(** [DEFAULT_SAMBA_IMAGE] and [container_types.enable_shared_namespaces]
    (the argument list after the call) are defined outside this module. *)
Variable default_image : string.
Variable enable_shared_namespaces :
  list string -> string -> list Namespace -> list string.

Definition _to_init_container (ctx : CephadmContext) (smb_ctr : Container)
    : M t InitContainer :=
  let volume_mounts : Py.odict string := [] in
  let container_args := container_args smb_ctr in
  do volume_mounts <- customize_container_mounts ctx volume_mounts;
  let volume_mounts :=
    match container_engine ctx with
    | Podman update_mounts => update_mounts volume_mounts
    | Docker => volume_mounts
    end in
  do self <- read;
  let identity := from_parent (_identity self) (name smb_ctr) in
  ret {| ic_entrypoint := "";
         ic_image := str_or (ctx_image ctx) default_image;
         ic_identity := identity;
         ic_args := args smb_ctr;
         ic_container_args := container_args;
         ic_envs := envs_list smb_ctr;
         ic_volume_mounts := volume_mounts |}.

Definition _to_sidecar_container (ctx : CephadmContext) (smb_ctr : Container)
    : M t SidecarContainer :=
  let volume_mounts : Py.odict string := [] in
  let container_args := container_args smb_ctr in
  do volume_mounts <- customize_container_mounts ctx volume_mounts;
  let shared_ns := [ipc; network; pid] in
  let '(volume_mounts, shared_ns) :=
    match container_engine ctx with
    | Podman update_mounts => (update_mounts volume_mounts, shared_ns ++ [uts])
    | Docker => (volume_mounts, shared_ns)
    end in
  do self <- read;
  let container_args :=
    enable_shared_namespaces container_args
      (DaemonIdentity.container_name (_identity self)) shared_ns in
  let identity := from_parent (_identity self) (name smb_ctr) in
  let img := str_or (container_image smb_ctr) (str_or (ctx_image ctx) default_image) in
  ret {| sc_entrypoint := "";
         sc_image := img;
         sc_identity := identity;
         sc_container_args := container_args;
         sc_args := args smb_ctr;
         sc_envs := envs_list smb_ctr;
         sc_volume_mounts := volume_mounts;
         sc_init := false;
         sc_remove := true |}.

(** A list comprehension over a computation. *)
Fixpoint for_each {A B} (f : A -> M t B) (l : list A) : M t (list B) :=
  match l with
  | [] => ret []
  | x :: l' => do y <- f x; do ys <- for_each f l'; ret (y :: ys)
  end.

Definition init_containers (ctx : CephadmContext) : M t (list InitContainer) :=
  do l <- _layout;
  for_each (_to_init_container ctx) (init_containers l).

Definition sidecar_containers (ctx : CephadmContext) : M t (list SidecarContainer) :=
  do l <- _layout;
  for_each (_to_sidecar_container ctx) (supplemental l).

End Composer.

End SMB.

(** ** Vocabulary of the statements *)

(** The classes of a bucket, in order. *)
Definition classes (l : list Container) : list RoleClass := map cls l.

(** [x] occurs somewhere before an occurrence of [y] in [l]. *)
Definition before {A} (x y : A) (l : list A) : Prop :=
  exists l1 l2 l3, l = l1 ++ x :: l2 ++ y :: l3.

(** [y] is the element right after an occurrence of [x] in [l]. *)
Definition right_after {A} (x y : A) (l : list A) : Prop :=
  exists l1 l2, l = l1 ++ x :: y :: l2.

(** A metrics image is configured: something is left of it once stripped. *)
Definition metrics_configured (c : Config) : bool :=
  Py.str_bool (Py.strip (metrics_image c)) && (metrics_port c >? 0).

(** Every character of [s] is white space. *)
Fixpoint all_space (s : string) : bool :=
  match s with
  | EmptyString => true
  | String ch s' => Py.isspace ch && all_space s'
  end.

Fixpoint is_prefix (t s : string) : bool :=
  match t, s with
  | EmptyString, _ => true
  | String a t', String b s' => bool_decide (a = b) && is_prefix t' s'
  | String _ _, EmptyString => false
  end.

(** [tag in msg] on strings. *)
Fixpoint contains (tag msg : string) : bool :=
  is_prefix tag msg ||
  match msg with
  | EmptyString => false
  | String _ msg' => contains tag msg'
  end.

(** [dataclasses.replace(c, rank_generation=g)] *)
Definition with_rank_generation (g : Z) (c : Config) : Config :=
  mkConfig (identity c) (instance_id c) (source_config c) (domain_member c)
    (clustered c) (samba_debug_level c) (ctdb_log_level c) (debug_delay c)
    (join_sources c) (user_sources c) (custom_dns c) (smb_port c)
    (ceph_config_entity c) (vhostname c) (metrics_image c) (metrics_port c)
    (rank c) g (cluster_meta_uri c) (cluster_lock_uri c) (cluster_public_addrs c).

(** Every character of [s] satisfies [p]. *)
Fixpoint all_chars (p : ascii -> bool) (s : string) : bool :=
  match s with
  | EmptyString => true
  | String ch s' => p ch && all_chars p s'
  end.

(** The first character of [s], if any, does not satisfy [p]. *)
Definition not_starting_with (p : ascii -> bool) (s : string) : bool :=
  match s with
  | EmptyString => true
  | String ch _ => negb (p ch)
  end.

(** The last character of [s], if any, does not satisfy [p]. *)
Fixpoint not_ending_with (p : ascii -> bool) (s : string) : bool :=
  match s with
  | EmptyString => true
  | String ch EmptyString => negb (p ch)
  | String _ s' => not_ending_with p s'
  end.

(** [d.keys()] *)
Definition keys {V} (d : Py.odict V) : list string := map fst d.

(** The directories created, the files written and the file sets populated
    by a run of file-system operations, in order. *)
Definition made_dirs (ops : list SMB.FsOp) : list Path :=
  omap (fun op => match op with SMB.makedirs d _ _ _ => Some d | _ => None end) ops.

Definition written (ops : list SMB.FsOp) : list (Path * string) :=
  omap (fun op => match op with SMB.write_new p s => Some (p, s) | _ => None end) ops.

Definition populated (ops : list SMB.FsOp) : list (Py.odict string) :=
  omap (fun op => match op with SMB.populate_files _ f _ _ => Some f | _ => None end)
       ops.

(** The mount points under the data directory: always, and when clustered. *)
Definition samba_mounts : list (string * string) :=
  [("etc-samba-container", "/etc/samba/container:z");
   ("lib-samba", "/var/lib/samba:z");
   ("run", "/run:z");
   ("config", "/etc/ceph/ceph.conf:z");
   ("keyring", "/etc/ceph/keyring:z")].

Definition ctdb_mounts : list (string * string) :=
  [("ctdb/persistent", "/var/lib/ctdb/persistent:z");
   ("ctdb/run", "/var/run/ctdb:z");
   ("ctdb/volatile", "/var/lib/ctdb/volatile:z");
   ("ctdb/etc", "/etc/ctdb:z");
   ("ctdb/smb.conf", "/etc/samba/smb.conf:z")].

(** ** Sample inputs *)

Module Sample.

Definition ident : DaemonIdentity.t :=
  DaemonIdentity.mk "smb" "smb.tank" "ceph-fsid-smb-tank"
    (fun d => d +:+ "/fsid/smb.tank").

Definition ctx : CephadmContext :=
  {| ctx_image := "quay.io/samba.org/samba-server:latest";
     ctx_data_dir := "/var/lib/ceph";
     container_engine := Docker;
     list_networks := {[ "netA" := ["eth0"]; "netB" := ["eth1"; "eth2"] ]};
     getfqdn := "node1.example.com" |}.

Definition raw (feats : list string) (id : string) : RawConfigs.t :=
  {| RawConfigs.cluster_id := Some id;
     RawConfigs.config_uri := Some "rados://pool/ns/cfg";
     RawConfigs.join_sources := None;
     RawConfigs.user_sources := Some ["rados://pool/ns/users"];
     RawConfigs.custom_dns := None;
     RawConfigs.features := Some feats;
     RawConfigs.files := None;
     RawConfigs.config_auth_entity := Some "client.smb";
     RawConfigs.virtual_hostname := None;
     RawConfigs.metrics_image := Some " ";
     RawConfigs.metrics_port := Some (PyInt 9922);
     RawConfigs.cluster_meta_uri := Some "rados://pool/ns/meta";
     RawConfigs.cluster_lock_uri := Some "rados://pool/obj";
     RawConfigs.cluster_public_addrs :=
       Some [PyDict [("address", PyStr "192.168.7.1/24");
                     ("destinations", PyStrList ["netA"; "netC"; "netB"])]] |}.

Definition cfg (dm cl : bool) (img : string) (r g : Z) : Config :=
  mkConfig ident "tank" "rados://pool/ns/cfg" dm cl 0 "" 0 []
    ["rados://pool/ns/users"] [] 445 "client.smb" "tank-node1.example.com"
    img 9922 r g "rados://pool/ns/meta" "rados://pool/obj"
    [mkClusterPublicIP "192.168.7.1/24" ["netA"; "netC"; "netB"]].

(** A validated object holding [c], its layout not yet computed. *)
Definition validated (c : Config) : SMB.t :=
  SMB.set_validated c [] (_NetworkMapper.load (_NetworkMapper.__init__ ctx))
    (SMB.attributes ctx ident (raw [] "tank") (None, None) None).

End Sample.

(** ** Lemmas on the object's accessors *)

Section Accessors.

Context (self : SMB.t) (c : Config).
Hypothesis Hcfg : SMB._instance_cfg self = Some c.

Lemma validate_validated : SMB.validate self = Ok (tt, self).
Proof. unfold SMB.validate, bind, read. simpl. by rewrite Hcfg. Qed.

Lemma _cfg_validated : SMB._cfg self = Ok (c, self).
Proof.
  unfold SMB._cfg, bind. rewrite validate_validated.
  unfold read. simpl. by rewrite Hcfg.
Qed.

Lemma _layout_fresh :
  SMB._cached_layout self = None ->
  SMB._layout self
  = Ok (build_layout c, SMB.set_cached_layout (build_layout c) self).
Proof.
  intros Hnone. unfold SMB._layout, bind, read. simpl. rewrite Hnone.
  unfold bind. by rewrite _cfg_validated.
Qed.

Lemma _layout_memoized l :
  SMB._cached_layout self = Some l -> SMB._layout self = Ok (l, self).
Proof. intros Hl. unfold SMB._layout, bind, read. simpl. by rewrite Hl. Qed.

End Accessors.

(** ** The layout builder *)

Lemma build_layout_init c :
  classes (init_containers (build_layout c))
  = [ConfigInitContainer]
    ++ (if domain_member c then [MustJoinContainer] else [])
    ++ (if clustered c
        then [CTDBMigrateInitContainer; CTDBMustHaveNodeInitContainer] else []).
Proof. unfold build_layout. by destruct (domain_member c), (clustered c). Qed.

Lemma build_layout_primary c : primary (build_layout c) = new SMBDContainer c.
Proof. unfold build_layout. by destruct (domain_member c), (clustered c). Qed.

Lemma build_layout_supplemental c :
  classes (supplemental (build_layout c))
  = [ConfigWatchContainer]
    ++ (if domain_member c then [WinbindContainer] else [])
    ++ (if metrics_configured c then [SMBMetricsContainer] else [])
    ++ (if clustered c then [CTDBDaemonContainer; CTDBNodeMonitorContainer] else []).
Proof.
  unfold build_layout, metrics_configured.
  destruct (domain_member c), (clustered c);
    by destruct (Py.str_bool (Py.strip (metrics_image c)) && (metrics_port c >? 0)).
Qed.

Lemma build_layout_cfg c x :
  x ∈ init_containers (build_layout c) ++ primary (build_layout c)
        :: supplemental (build_layout c) ->
  cfg x = c.
Proof.
  unfold build_layout.
  destruct (domain_member c), (clustered c),
    (Py.str_bool (Py.strip (metrics_image c)) && (metrics_port c >? 0));
    simpl; rewrite ?elem_of_cons, elem_of_nil; intros H;
    repeat (destruct H as [-> | H]; [done |]); done.
Qed.

(** C1. For every Config the layout has, in this order,
    init = config-init, then must-join if domain_member, then ctdb-migrate
    and ctdb-must-have-node if clustered; primary = smbd; supplemental =
    configwatch, then winbindd if domain_member, then smbmetrics if a metrics
    image is configured and metrics_port > 0, then ctdbd and
    ctdb-node-monitor if clustered.  Stated on [SMB._layout] of an object
    validated with that Config, at its first call. *)
Theorem layout_exact (self : SMB.t) (c : Config) :
  SMB._instance_cfg self = Some c ->
  SMB._cached_layout self = None ->
  exists l self',
    SMB._layout self = Ok (l, self')
    /\ classes (init_containers l)
       = [ConfigInitContainer]
         ++ (if domain_member c then [MustJoinContainer] else [])
         ++ (if clustered c
             then [CTDBMigrateInitContainer; CTDBMustHaveNodeInitContainer]
             else [])
    /\ primary l = new SMBDContainer c
    /\ classes (supplemental l)
       = [ConfigWatchContainer]
         ++ (if domain_member c then [WinbindContainer] else [])
         ++ (if Py.str_bool (Py.strip (metrics_image c)) && (metrics_port c >? 0)
             then [SMBMetricsContainer] else [])
         ++ (if clustered c
             then [CTDBDaemonContainer; CTDBNodeMonitorContainer] else []).
Proof.
  intros Hc Hl. eexists _, _. split; [by apply _layout_fresh |].
  split; [apply build_layout_init |].
  split; [apply build_layout_primary | apply build_layout_supplemental].
Qed.

Lemma layout_exact_witness :
  SMB._instance_cfg (Sample.validated (Sample.cfg true true "img" 0 0))
  = Some (Sample.cfg true true "img" 0 0)
  /\ SMB._cached_layout (Sample.validated (Sample.cfg true true "img" 0 0)) = None
  /\ exists l self',
       SMB._layout (Sample.validated (Sample.cfg true true "img" 0 0))
       = Ok (l, self')
       /\ classes (init_containers l)
          = [ConfigInitContainer; MustJoinContainer; CTDBMigrateInitContainer;
             CTDBMustHaveNodeInitContainer]
       /\ primary l = new SMBDContainer (Sample.cfg true true "img" 0 0)
       /\ classes (supplemental l)
          = [ConfigWatchContainer; WinbindContainer; SMBMetricsContainer;
             CTDBDaemonContainer; CTDBNodeMonitorContainer].
Proof.
  split; [reflexivity |]. split; [reflexivity |].
  apply (layout_exact (Sample.validated (Sample.cfg true true "img" 0 0))
           (Sample.cfg true true "img" 0 0)); reflexivity.
Defined.

(** ** Order of winbindd and configwatch *)

Lemma not_before_head {A} (x y : A) (l : list A) :
  x <> y -> y ∉ l -> ~ before x y (y :: l).
Proof.
  intros Hne Hnin (l1 & l2 & l3 & Heq).
  destruct l1 as [| z l1]; simpl in Heq; injection Heq as Hhd Htl.
  - by apply Hne.
  - apply Hnin. rewrite Htl. rewrite elem_of_app, elem_of_cons, elem_of_app.
    right. right. right. apply elem_of_cons. by left.
Qed.

Lemma configwatch_heads_supplemental c :
  exists rest,
    classes (supplemental (build_layout c)) = ConfigWatchContainer :: rest
    /\ ConfigWatchContainer ∉ rest.
Proof.
  rewrite build_layout_supplemental. eexists. split; [reflexivity |].
  destruct (domain_member c), (metrics_configured c), (clustered c); simpl;
    rewrite ?elem_of_cons, elem_of_nil; intros H;
    repeat (destruct H as [H | H]; [discriminate |]); done.
Qed.

(** C3, as stated, fails: with domain_member set, winbindd does not come
    before configwatch in the supplemental list. *)
Lemma winbindd_before_configwatch_fails :
  domain_member (Sample.cfg true false "" (-1) (-1)) = true
  /\ exists l self',
       SMB._layout (Sample.validated (Sample.cfg true false "" (-1) (-1)))
       = Ok (l, self')
       /\ classes (supplemental l) = [ConfigWatchContainer; WinbindContainer]
       /\ ~ before WinbindContainer ConfigWatchContainer (classes (supplemental l)).
Proof.
  split; [reflexivity |]. eexists _, _.
  split; [apply _layout_fresh; reflexivity |].
  split; [reflexivity |].
  apply not_before_head; [discriminate |].
  rewrite elem_of_cons, elem_of_nil. intros [H | []]. discriminate.
Qed.

(** C3, amended. For every Config with domain_member set, whatever the other
    flags, the init list starts with config-init immediately followed by
    must-join, and the supplemental list starts with configwatch immediately
    followed by winbindd; winbindd never comes before configwatch. *)
Theorem domain_member_order (self : SMB.t) (c : Config) :
  SMB._instance_cfg self = Some c ->
  SMB._cached_layout self = None ->
  domain_member c = true ->
  exists l self',
    SMB._layout self = Ok (l, self')
    /\ right_after ConfigInitContainer MustJoinContainer
         (classes (init_containers l))
    /\ right_after ConfigWatchContainer WinbindContainer
         (classes (supplemental l))
    /\ ~ before WinbindContainer ConfigWatchContainer (classes (supplemental l)).
Proof.
  intros Hc Hl Hdm. eexists _, _. split; [by apply _layout_fresh |].
  split; [| split].
  - rewrite build_layout_init, Hdm. by eexists [], _.
  - rewrite build_layout_supplemental, Hdm. by eexists [], _.
  - destruct (configwatch_heads_supplemental c) as (rest & -> & Hnin).
    by apply not_before_head.
Qed.

Lemma domain_member_order_witness :
  SMB._instance_cfg (Sample.validated (Sample.cfg true true " " 0 0))
  = Some (Sample.cfg true true " " 0 0)
  /\ SMB._cached_layout (Sample.validated (Sample.cfg true true " " 0 0)) = None
  /\ domain_member (Sample.cfg true true " " 0 0) = true
  /\ exists l self',
       SMB._layout (Sample.validated (Sample.cfg true true " " 0 0)) = Ok (l, self')
       /\ right_after ConfigInitContainer MustJoinContainer
            (classes (init_containers l))
       /\ right_after ConfigWatchContainer WinbindContainer
            (classes (supplemental l))
       /\ ~ before WinbindContainer ConfigWatchContainer
            (classes (supplemental l)).
Proof.
  split; [reflexivity |]. split; [reflexivity |]. split; [reflexivity |].
  apply (domain_member_order (Sample.validated (Sample.cfg true true " " 0 0))
           (Sample.cfg true true " " 0 0)); reflexivity.
Defined.

(** ** White-space metrics images *)

Lemma lstrip_all_space s : all_space s = true -> Py.lstrip s = "".
Proof.
  induction s as [| ch s IH]; simpl; [done |].
  intros [Hch Hs]%andb_prop. rewrite Hch. by apply IH.
Qed.

Lemma strip_all_space s : all_space s = true -> Py.strip s = "".
Proof. intros H. unfold Py.strip. by rewrite lstrip_all_space. Qed.

(** C9. For every Config whose metrics_image consists of white-space
    characters only (for instance a single blank), the layout has no
    smbmetrics sidecar, whatever metrics_port is: the image is stripped
    before it is tested. *)
Theorem blank_metrics_image_no_sidecar (self : SMB.t) (c : Config) :
  SMB._instance_cfg self = Some c ->
  SMB._cached_layout self = None ->
  all_space (metrics_image c) = true ->
  exists l self',
    SMB._layout self = Ok (l, self')
    /\ (SMBMetricsContainer ∉ classes (supplemental l))
    /\ Forall (fun x => name x <> "smbmetrics") (supplemental l).
Proof.
  intros Hc Hl Hsp. eexists _, _. split; [by apply _layout_fresh |].
  assert (Hno : SMBMetricsContainer ∉ classes (supplemental (build_layout c))).
  { rewrite build_layout_supplemental. unfold metrics_configured.
    rewrite (strip_all_space _ Hsp). simpl.
    destruct (domain_member c), (clustered c); simpl;
      rewrite ?elem_of_cons, elem_of_nil; intros H;
      repeat (destruct H as [H | H]; [discriminate |]); done. }
  split; [done |].
  apply Forall_forall. intros x Hx Hname. apply Hno.
  unfold classes. apply list_elem_of_fmap. exists x. split; [| done].
  unfold name in Hname. by destruct (cls x).
Qed.

Lemma blank_metrics_image_no_sidecar_witness :
  SMB._instance_cfg (Sample.validated (Sample.cfg false true " " 0 0))
  = Some (Sample.cfg false true " " 0 0)
  /\ SMB._cached_layout (Sample.validated (Sample.cfg false true " " 0 0)) = None
  /\ all_space (metrics_image (Sample.cfg false true " " 0 0)) = true
  /\ metrics_port (Sample.cfg false true " " 0 0) > 0
  /\ exists l self',
       SMB._layout (Sample.validated (Sample.cfg false true " " 0 0))
       = Ok (l, self')
       /\ (SMBMetricsContainer ∉ classes (supplemental l))
       /\ Forall (fun x => name x <> "smbmetrics") (supplemental l).
Proof.
  split; [reflexivity |]. split; [reflexivity |]. split; [reflexivity |].
  split; [reflexivity |].
  apply (blank_metrics_image_no_sidecar
           (Sample.validated (Sample.cfg false true " " 0 0))
           (Sample.cfg false true " " 0 0)); reflexivity.
Defined.

(** ** The network mapper *)

Lemma foldl_append_each {A} (acc l : list A) :
  foldl (fun devs dev => devs ++ [dev]) acc l = acc ++ l.
Proof.
  revert acc. induction l as [| x l IH]; intros acc; simpl.
  - by rewrite app_nil_r.
  - rewrite IH, <- app_assoc. done.
Qed.

Lemma foldl_networks (nets : gmap string (list string)) (acc : list string)
    (dests : list string) :
  foldl (fun devs net =>
           match nets !! net with
           | None => devs
           | Some on_net => foldl (fun devs dev => devs ++ [dev]) devs on_net
           end) acc dests
  = acc ++ concat (map (fun net => default [] (nets !! net)) dests).
Proof.
  revert acc. induction dests as [| net dests IH]; intros acc; simpl.
  - by rewrite app_nil_r.
  - rewrite IH. destruct (nets !! net) as [on_net |]; simpl.
    + by rewrite foldl_append_each, <- app_assoc.
    + done.
Qed.

(** C2. Resolving a ClusterPublicIP keeps its address and yields the devices
    of every destination network present in the inventory, in destination
    order then device order, duplicates kept; an absent destination adds
    nothing and no error is possible ([_convert] is a total function), so an
    address whose destinations are all unknown resolves to the empty list. *)
Theorem convert_resolves (self : _NetworkMapper.t) (addr : ClusterPublicIP) :
  address (_NetworkMapper._convert self addr) = address addr
  /\ destinations (_NetworkMapper._convert self addr)
     = concat (map (fun net => default [] (_NetworkMapper._networks self !! net))
                   (destinations addr))
  /\ (Forall (fun net => _NetworkMapper._networks self !! net = None)
             (destinations addr) ->
      destinations (_NetworkMapper._convert self addr) = []).
Proof.
  unfold _NetworkMapper._convert. simpl. rewrite foldl_networks. simpl.
  split; [done |]. split; [done |].
  induction 1 as [| net dests Hnet _ IH]; simpl; [done |].
  by rewrite Hnet.
Qed.

Lemma convert_resolves_witness :
  Forall (fun net =>
            _NetworkMapper._networks
              (_NetworkMapper.load (_NetworkMapper.__init__ Sample.ctx)) !! net
            = None)
         ["netC"; "netD"]
  /\ destinations
       (_NetworkMapper._convert
          (_NetworkMapper.load (_NetworkMapper.__init__ Sample.ctx))
          (mkClusterPublicIP "192.168.7.1/24" ["netC"; "netD"]))
     = [].
Proof.
  assert (H : Forall (fun net =>
            _NetworkMapper._networks
              (_NetworkMapper.load (_NetworkMapper.__init__ Sample.ctx)) !! net
            = None) ["netC"; "netD"]).
  { repeat constructor. }
  split; [exact H |].
  exact (proj2 (proj2 (convert_resolves
           (_NetworkMapper.load (_NetworkMapper.__init__ Sample.ctx))
           (mkClusterPublicIP "192.168.7.1/24" ["netC"; "netD"]))) H).
Defined.

(** The round trip of the specification: netA and netB are attached, netC is
    not. *)
Example convert_round_trip :
  _NetworkMapper._convert
    (_NetworkMapper.load (_NetworkMapper.__init__ Sample.ctx))
    (mkClusterPublicIP "192.168.7.1/24" ["netA"; "netC"; "netB"; "netA"])
  = mkClusterPublicIP "192.168.7.1/24" ["eth0"; "eth1"; "eth2"; "eth0"].
Proof. vm_compute. reflexivity. Qed.

(** ** Validation *)

Lemma append_cons_str ch (a b : string) : String ch a +:+ b = String ch (a +:+ b).
Proof. reflexivity. Qed.

Lemma append_empty_str (b : string) : "" +:+ b = b.
Proof. reflexivity. Qed.



Lemma is_prefix_spec t s : is_prefix t s = true <-> exists post, s = t +:+ post.
Proof.
  revert s. induction t as [| a t IH]; intros s; simpl.
  - split; [by exists s | done].
  - destruct s as [| b s].
    + split; [done | by intros [post H]].
    + rewrite andb_true_iff, bool_decide_eq_true, IH. split.
      * intros [-> [post ->]]. by exists post.
      * intros [post H]. rewrite append_cons_str in H. injection H as -> ->.
        split; [done | by exists post].
Qed.

Lemma contains_spec tag msg :
  contains tag msg = true <-> exists pre post, msg = pre +:+ tag +:+ post.
Proof.
  induction msg as [| ch msg IH]; simpl; rewrite orb_true_iff, is_prefix_spec.
  - split.
    + intros [[post H] | H]; [by exists "", post | done].
    + intros (pre & post & H). left. destruct pre; [by exists post | done].
  - rewrite IH. split.
    + intros [[post H] | (pre & post & H)]; [by exists "", post |].
      exists (String ch pre), post. by rewrite append_cons_str, H.
    + intros (pre & post & H). destruct pre as [| ch' pre].
      * left. by exists post.
      * right. rewrite append_cons_str in H. injection H as -> ->.
        by exists pre, post.
Qed.


Lemma elem_of_invalid_features f feats :
  f ∈ SMB.invalid_features_of feats <-> Features.valid f = false /\ f ∈ feats.
Proof.
  unfold SMB.invalid_features_of.
  rewrite elem_of_list_to_set, list_elem_of_filter.
  destruct (Features.valid f); simpl; split; intros [Hv Hin]; done.
Qed.

Lemma constructor_inv ctx ident raw ck ri self :
  SMB.__init__ ctx ident raw ck ri = Ok self ->
  self = SMB.attributes ctx ident raw ck ri.
Proof. unfold SMB.__init__. case_bool_decide; congruence. Qed.

Lemma no_invalid_features (feats : list string) :
  elements (SMB.invalid_features_of feats) = []
  <-> Forall (fun f => Features.valid f = true) feats.
Proof.
  rewrite elements_empty_iff, Forall_forall. split.
  - intros Hemp f Hin. destruct (Features.valid f) eqn:Hf; [done |].
    exfalso. apply (not_elem_of_empty (C:=gset string) f). apply Hemp.
    by apply elem_of_invalid_features.
  - intros Hall f. rewrite elem_of_invalid_features.
    split; [| by intros ?%elem_of_empty].
    intros [Hf Hin]. specialize (Hall f Hin). congruence.
Qed.

Lemma for_result_length {A B} (f : A -> result B) (l : list A) (l' : list B) :
  for_result f l = Ok l' -> length l' = length l.
Proof.
  revert l'. induction l as [| x l IH]; intros l'; simpl.
  - by intros [= <-].
  - destruct (f x) as [y | e]; [| done].
    destruct (for_result f l) as [ys | e]; [| done].
    intros [= <-]. simpl. by rewrite (IH ys).
Qed.

(** The outcome of [validate] on a freshly constructed object, step by
    step in the order of the source. *)
Lemma validate_fresh ctx ident raw ck ri :
  SMB.validate (SMB.attributes ctx ident raw ck ri)
  = match Int.int (get (RawConfigs.metrics_port raw) (PyStr "0")) with
    | Raise e => Raise e
    | Ok port =>
        if negb (Py.str_bool (get (RawConfigs.cluster_id raw) ""))
        then Raise (Error "invalid instance (cluster) id")
        else if negb (Py.str_bool (get (RawConfigs.config_uri raw) ""))
        then Raise (Error "invalid configuration source uri")
        else if Py.list_bool
                  (elements (SMB.invalid_features_of
                               (get (RawConfigs.features raw) [])))
        then Raise (Error ("invalid instance features: "
                           +:+ Py.join ", "
                                 (elements (SMB.invalid_features_of
                                              (get (RawConfigs.features raw) [])))))
        else
          match for_result convert (get (RawConfigs.cluster_public_addrs raw) []) with
          | Raise e => Raise e
          | Ok addrs =>
              Ok (tt,
                  SMB.set_validated
                    (mkConfig ident
                       (get (RawConfigs.cluster_id raw) "")
                       (get (RawConfigs.config_uri raw) "")
                       (bool_decide ("domain" ∈ get (RawConfigs.features raw) []))
                       (bool_decide ("clustered" ∈ get (RawConfigs.features raw) []))
                       0 "" 0
                       (get (RawConfigs.join_sources raw) [])
                       (get (RawConfigs.user_sources raw) [])
                       (get (RawConfigs.custom_dns raw) [])
                       445
                       (get (RawConfigs.config_auth_entity raw) "")
                       (if negb (Py.str_bool
                                   (get (RawConfigs.virtual_hostname raw) ""))
                        then get (RawConfigs.cluster_id raw) "" +:+ "-"
                             +:+ getfqdn ctx
                        else get (RawConfigs.virtual_hostname raw) "")
                       (get (RawConfigs.metrics_image raw) "")
                       port
                       (default (-1, -1) ri).1 (default (-1, -1) ri).2
                       (get (RawConfigs.cluster_meta_uri raw) "")
                       (get (RawConfigs.cluster_lock_uri raw) "")
                       addrs)
                    (get (RawConfigs.files raw) [])
                    (if Py.list_bool addrs
                     then _NetworkMapper.load (_NetworkMapper.__init__ ctx)
                     else _NetworkMapper.__init__ ctx)
                    (SMB.attributes ctx ident raw ck ri))
          end
    end.
Proof.
  unfold SMB.validate, SMB.attributes, bind, read, lift. simpl.
  destruct (Int.int (get (RawConfigs.metrics_port raw) (PyStr "0"))); [| done].
  destruct (Py.str_bool (get (RawConfigs.cluster_id raw) "")); simpl; [| done].
  destruct (Py.str_bool (get (RawConfigs.config_uri raw) "")); simpl; [| done].
  destruct (Py.list_bool _); [done |].
  destruct (for_result convert _); [| done].
  by destruct (default (-1, -1) ri).
Qed.




(** ** The cluster descriptor *)

Lemma stub_recovery_lock (self : SMB.t) (c : Config) :
  Json.member "ctdb" (SMB.ctdb_stub_config self c) ≫= Json.member "recovery_lock"
  = Some (Json.Str ("!" +:+ "/usr/bin/samba-container ctdb-rados-mutex "
                    +:+ cluster_lock_uri c)).
Proof.
  unfold SMB.ctdb_stub_config.
  destruct (Py.str_bool (ctdb_log_level c)); reflexivity.
Qed.

(** C5. For every clustered Config, preparing the data directory writes
    [etc-samba-container/ctdb.json] with a descriptor whose [recovery_lock]
    is ['!'] followed by ['/usr/bin/samba-container ctdb-rados-mutex ']
    followed by cluster_lock_uri; with the URI [rados://pool/obj] it is
    [!/usr/bin/samba-container ctdb-rados-mutex rados://pool/obj]. *)
Theorem recovery_lock_command (self : SMB.t) (c : Config) (dir : string)
    (uid gid : Z) :
  SMB._instance_cfg self = Some c ->
  clustered c = true ->
  exists ops descriptor,
    SMB.prepare_data_dir dir uid gid self = Ok (ops, self)
    /\ SMB.write_new (Div (Div (PathOf dir) "etc-samba-container") "ctdb.json")
         (Json.dumps descriptor) ∈ ops
    /\ Json.member "ctdb" descriptor ≫= Json.member "recovery_lock"
       = Some (Json.Str ("!" +:+ "/usr/bin/samba-container ctdb-rados-mutex "
                         +:+ cluster_lock_uri c))
    /\ (cluster_lock_uri c = "rados://pool/obj" ->
        Json.member "ctdb" descriptor ≫= Json.member "recovery_lock"
        = Some (Json.Str
                  "!/usr/bin/samba-container ctdb-rados-mutex rados://pool/obj")).
Proof.
  intros Hc Hcl.
  eexists _, (SMB.ctdb_stub_config self c).
  split; [| split; [| split]].
  - unfold SMB.prepare_data_dir, bind. rewrite (validate_validated self c Hc).
    unfold read at 1. cbv beta iota. rewrite (_cfg_validated self c Hc), Hcl.
    unfold SMB._write_ctdb_stub_config, bind.
    rewrite (_cfg_validated self c Hc). reflexivity.
  - rewrite !elem_of_app. right. left. apply elem_of_cons. by left.
  - apply stub_recovery_lock.
  - intros Huri. rewrite stub_recovery_lock, Huri. reflexivity.
Qed.

Lemma recovery_lock_command_witness :
  SMB._instance_cfg (Sample.validated (Sample.cfg false true "" 0 0))
  = Some (Sample.cfg false true "" 0 0)
  /\ clustered (Sample.cfg false true "" 0 0) = true
  /\ cluster_lock_uri (Sample.cfg false true "" 0 0) = "rados://pool/obj"
  /\ exists ops descriptor,
       SMB.prepare_data_dir "/var/lib/ceph/fsid/smb.tank" 0 0
         (Sample.validated (Sample.cfg false true "" 0 0))
       = Ok (ops, Sample.validated (Sample.cfg false true "" 0 0))
       /\ SMB.write_new
            (Div (Div (PathOf "/var/lib/ceph/fsid/smb.tank") "etc-samba-container")
               "ctdb.json")
            (Json.dumps descriptor) ∈ ops
       /\ Json.member "ctdb" descriptor ≫= Json.member "recovery_lock"
          = Some (Json.Str
                    "!/usr/bin/samba-container ctdb-rados-mutex rados://pool/obj").
Proof.
  split; [reflexivity |]. split; [reflexivity |]. split; [reflexivity |].
  destruct (recovery_lock_command
              (Sample.validated (Sample.cfg false true "" 0 0))
              (Sample.cfg false true "" 0 0)
              "/var/lib/ceph/fsid/smb.tank" 0 0 eq_refl eq_refl)
    as (ops & descriptor & Hrun & Hin & _ & Hlock).
  exists ops, descriptor. split; [exact Hrun |]. split; [exact Hin |].
  exact (Hlock eq_refl).
Defined.

(** ** Role environments *)

Lemma getitem_setitem {V} (k k' : string) (v : V) (d : Py.odict V) :
  Py.getitem k (Py.setitem k' v d)
  = if decide (k = k')
    then Some v
    else Py.getitem k d.
Proof.
  induction d as [| [k0 v0] d IH]; simpl.
  - by destruct (decide (k = k')).
  - destruct (decide (k' = k0)) as [-> | Hne]; simpl.
    + by destruct (decide (k = k0)).
    + destruct (decide (k = k0)) as [-> | Hne'].
      * destruct (decide (k0 = k')); [congruence | done].
      * done.
Qed.

Lemma getitem_Some_elem {V} (k : string) (v : V) (d : Py.odict V) :
  Py.getitem k d = Some v -> (k, v) ∈ d.
Proof.
  induction d as [| [k0 v0] d IH]; simpl; [done |].
  destruct (decide (k = k0)) as [-> | Hne].
  - intros [= ->]. apply elem_of_cons. by left.
  - intros H. apply elem_of_cons. right. by apply IH.
Qed.

Lemma samba_envs_dispatch (x : Container) :
  is_samba_container (cls x) = true ->
  envs x = SambaContainerCommon_.envs x
  /\ envs_list x = SambaContainerCommon_.envs_list x.
Proof.
  unfold is_samba_container, envs, envs_list.
  by destruct (base (cls x)).
Qed.

Lemma samba_env_config (x : Container) :
  Py.getitem "SAMBACC_CONFIG" (SambaContainerCommon_.envs x)
  = Some (Json.dumps (Json.of_strs (config_uris (cfg x)))).
Proof.
  unfold SambaContainerCommon_.envs.
  destruct (Py.str_bool (ceph_config_entity (cfg x))), (rank (cfg x) >=? 0);
    reflexivity.
Qed.

Lemma samba_env_rank (x : Container) (k : string) :
  k ∈ ["RANK"; "RANK_GENERATION"; "NODE_NUMBER"] ->
  rank (cfg x) >= 0 ->
  Py.getitem k (SambaContainerCommon_.envs x) = Some (Py.str (rank (cfg x))).
Proof.
  intros Hk Hrank.
  assert (Hge : (rank (cfg x) >=? 0) = true) by (apply Z.geb_le; lia).
  unfold SambaContainerCommon_.envs. rewrite Hge.
  repeat (apply elem_of_cons in Hk as [-> | Hk]);
    [| | | by apply elem_of_nil in Hk];
    destruct (Py.str_bool (ceph_config_entity (cfg x))); reflexivity.
Qed.

Lemma config_uris_eq (c : Config) :
  config_uris c
  = [source_config c] ++ user_sources c
    ++ (if clustered c then ["/etc/samba/container/ctdb.json"] else []).
Proof.
  unfold config_uris. destruct (clustered c); simpl; [done |].
  by rewrite app_nil_r.
Qed.

(** C6, as stated, fails: the smbmetrics sidecar of a layout is a
    containerized role with an empty environment, so the URI list does not
    appear in it. *)
Lemma smbmetrics_env_lacks_config_uris :
  exists x,
    x ∈ supplemental (build_layout (Sample.cfg false false "img" (-1) (-1)))
    /\ cls x = SMBMetricsContainer
    /\ envs_list x = []
    /\ Py.getitem "SAMBACC_CONFIG" (envs x) = None.
Proof.
  exists (new_with_image SMBMetricsContainer
            (Sample.cfg false false "img" (-1) (-1)) "img").
  split; [| by repeat split].
  apply elem_of_cons. right. apply elem_of_cons. by left.
Qed.

(** C6, amended. For every Config, config_uris() is source_config, then
    user_sources, then ['/etc/samba/container/ctdb.json'] if clustered; and
    this list, JSON-encoded, is the value of SAMBACC_CONFIG in the environment
    of every role built on the samba container (every role but smbmetrics). *)
Theorem config_uris_in_samba_env (x : Container) :
  is_samba_container (cls x) = true ->
  config_uris (cfg x)
  = [source_config (cfg x)] ++ user_sources (cfg x)
    ++ (if clustered (cfg x) then ["/etc/samba/container/ctdb.json"] else [])
  /\ Py.getitem "SAMBACC_CONFIG" (envs x)
     = Some (Json.dumps (Json.of_strs (config_uris (cfg x))))
  /\ ("SAMBACC_CONFIG=" +:+ Json.dumps (Json.of_strs (config_uris (cfg x))))
       ∈ envs_list x.
Proof.
  intros Hsamba. destruct (samba_envs_dispatch x Hsamba) as [-> ->].
  split; [apply config_uris_eq |]. split; [apply samba_env_config |].
  unfold SambaContainerCommon_.envs_list, Py.items.
  apply list_elem_of_fmap.
  exists ("SAMBACC_CONFIG", Json.dumps (Json.of_strs (config_uris (cfg x)))).
  split; [reflexivity |].
  apply getitem_Some_elem, samba_env_config.
Qed.

Lemma config_uris_in_samba_env_witness :
  is_samba_container (cls (new ConfigInitContainer (Sample.cfg true true "" 0 0)))
  = true
  /\ config_uris (Sample.cfg true true "" 0 0)
     = ["rados://pool/ns/cfg"; "rados://pool/ns/users";
        "/etc/samba/container/ctdb.json"]
  /\ ("SAMBACC_CONFIG="
      +:+ Json.dumps (Json.of_strs (config_uris (Sample.cfg true true "" 0 0))))
       ∈ envs_list (new ConfigInitContainer (Sample.cfg true true "" 0 0)).
Proof.
  split; [reflexivity |].
  destruct (config_uris_in_samba_env
              (new ConfigInitContainer (Sample.cfg true true "" 0 0)) eq_refl)
    as (Huris & _ & Hin).
  split; [exact Huris | exact Hin].
Defined.

(** The encoding of a list of two URIs. *)
Example dumps_two_uris :
  Json.dumps (Json.of_strs ["rados://p/n/c"; "/etc/samba/container/ctdb.json"])
  = "[" +:+ String Json.dquote "rados://p/n/c" +:+ String Json.dquote ", "
    +:+ String Json.dquote "/etc/samba/container/ctdb.json"
    +:+ String Json.dquote "]".
Proof. reflexivity. Qed.

Lemma envs_ignore_rank_generation (r : RoleClass) (c : Config) (img : string)
    (g : Z) :
  envs (mkContainer r (with_rank_generation g c) img) = envs (mkContainer r c img)
  /\ envs_list (mkContainer r (with_rank_generation g c) img)
     = envs_list (mkContainer r c img).
Proof. by destruct r. Qed.

(** C8. For every Config with rank >= 0, every samba-container role sets
    RANK_GENERATION to the decimal string of rank, the value of RANK and of
    NODE_NUMBER; replacing rank_generation by any other value changes the
    environment of no role. *)
Theorem rank_generation_is_rank (c : Config) (r : RoleClass) (img : string) :
  is_samba_container r = true ->
  rank c >= 0 ->
  Py.getitem "RANK_GENERATION" (envs (mkContainer r c img)) = Some (Py.str (rank c))
  /\ Py.getitem "RANK" (envs (mkContainer r c img)) = Some (Py.str (rank c))
  /\ Py.getitem "NODE_NUMBER" (envs (mkContainer r c img)) = Some (Py.str (rank c))
  /\ ("RANK_GENERATION=" +:+ Py.str (rank c)) ∈ envs_list (mkContainer r c img)
  /\ (forall (g : Z) (r' : RoleClass) (img' : string),
        envs (mkContainer r' (with_rank_generation g c) img')
        = envs (mkContainer r' c img')
        /\ envs_list (mkContainer r' (with_rank_generation g c) img')
           = envs_list (mkContainer r' c img')).
Proof.
  intros Hsamba Hrank.
  destruct (samba_envs_dispatch (mkContainer r c img) Hsamba) as [-> ->].
  assert (Hkey : forall k, k ∈ ["RANK"; "RANK_GENERATION"; "NODE_NUMBER"] ->
            Py.getitem k (SambaContainerCommon_.envs (mkContainer r c img))
            = Some (Py.str (rank c))).
  { intros k Hk. by apply (samba_env_rank (mkContainer r c img)). }
  split; [apply Hkey; set_solver |]. split; [apply Hkey; set_solver |].
  split; [apply Hkey; set_solver |]. split.
  - unfold SambaContainerCommon_.envs_list, Py.items.
    apply list_elem_of_fmap. exists ("RANK_GENERATION", Py.str (rank c)).
    split; [reflexivity |].
    apply getitem_Some_elem, Hkey. set_solver.
  - intros g r' img'. apply envs_ignore_rank_generation.
Qed.

Lemma rank_generation_is_rank_witness :
  is_samba_container CTDBDaemonContainer = true
  /\ rank (Sample.cfg false true "" 2 7) >= 0
  /\ rank_generation (Sample.cfg false true "" 2 7) = 7
  /\ Py.getitem "RANK_GENERATION"
       (envs (new CTDBDaemonContainer (Sample.cfg false true "" 2 7)))
     = Some "2".
Proof.
  split; [reflexivity |].
  assert (Hrank : rank (Sample.cfg false true "" 2 7) >= 0) by (simpl; lia).
  split; [exact Hrank |]. split; [reflexivity |].
  exact (proj1 (rank_generation_is_rank (Sample.cfg false true "" 2 7)
                  CTDBDaemonContainer "" eq_refl Hrank)).
Defined.

(** ** Network endpoints *)

Lemma existsb_port_false (p : Z) (l : list EndPoint) :
  existsb (fun ep => port ep =? p) l = false
  <-> Forall (fun ep => port ep <> p) l.
Proof.
  induction l as [| ep l IH]; simpl.
  - split; [constructor | done].
  - rewrite orb_false_iff, IH, Forall_cons, Z.eqb_neq. done.
Qed.

Lemma existsb_port_true (p : Z) (l : list EndPoint) :
  existsb (fun ep => port ep =? p) l = true
  <-> ~ Forall (fun ep => port ep <> p) l.
Proof.
  rewrite <- existsb_port_false.
  destruct (existsb (fun ep => port ep =? p) l); split; congruence.
Qed.

(** C7. For every endpoint list the hook returns the list extended at its
    end: by an endpoint for the SMB port exactly when no endpoint of the list
    has that port, then, exactly when the metrics port is positive and no
    endpoint of the list so far has it, by an endpoint for the metrics port.
    The endpoints that were there stay where they are. *)
Theorem endpoints_appended_if_absent (self : SMB.t) (endpoints : list EndPoint) :
  exists a b,
    SMB.customize_container_endpoints self endpoints = endpoints ++ a ++ b
    /\ (a = [] \/ a = [mkEndPoint "0.0.0.0" (SMB.smb_port self)])
    /\ (a <> [] <-> Forall (fun ep => port ep <> SMB.smb_port self) endpoints)
    /\ (b = [] \/ b = [mkEndPoint "0.0.0.0" (SMB.metrics_port self)])
    /\ (b <> [] <->
        SMB.metrics_port self > 0
        /\ Forall (fun ep => port ep <> SMB.metrics_port self) (endpoints ++ a))
    /\ (b <> [] ->
        Forall (fun ep => port ep <> SMB.metrics_port self) endpoints).
Proof.
  set (a := if existsb (fun ep => port ep =? SMB.smb_port self) endpoints
            then [] else [mkEndPoint "0.0.0.0" (SMB.smb_port self)]).
  set (b := if (SMB.metrics_port self >? 0)
               && negb (existsb (fun ep => port ep =? SMB.metrics_port self)
                          (endpoints ++ a))
            then [mkEndPoint "0.0.0.0" (SMB.metrics_port self)] else []).
  exists a, b. split; [| split; [| split; [| split; [| split]]]].
  - unfold SMB.customize_container_endpoints, b, a.
    destruct (existsb (fun ep => port ep =? SMB.smb_port self) endpoints); simpl;
      rewrite ?app_nil_r;
      destruct (SMB.metrics_port self >? 0); simpl; rewrite ?app_nil_r; try done;
      match goal with
      | |- context [existsb ?f ?l] => destruct (existsb f l)
      end; simpl; by rewrite ?app_nil_r, <- ?app_assoc.
  - unfold a. destruct (existsb _ endpoints); auto.
  - unfold a.
    destruct (existsb (fun ep => port ep =? SMB.smb_port self) endpoints) eqn:Hsmb.
    + apply existsb_port_true in Hsmb. split; [done | by intros ?].
    + apply existsb_port_false in Hsmb. split; [done | by intros _].
  - unfold b. destruct (_ && _); auto.
  - unfold b. destruct (SMB.metrics_port self >? 0) eqn:Hpos; simpl.
    + apply Z.gtb_lt in Hpos.
      destruct (existsb (fun ep => port ep =? SMB.metrics_port self)
                  (endpoints ++ a)) eqn:Hmet; simpl.
      * apply existsb_port_true in Hmet. split; [done | by intros [_ ?]].
      * apply existsb_port_false in Hmet. split; [intros _; split; [lia | done] | done].
    + split; [done |]. intros [Hgt _].
      apply Z.gt_lt, Z.gtb_lt in Hgt. congruence.
  - unfold b. destruct (SMB.metrics_port self >? 0); simpl; [| done].
    destruct (existsb (fun ep => port ep =? SMB.metrics_port self)
                (endpoints ++ a)) eqn:Hmet; simpl; [done |].
    apply existsb_port_false in Hmet. intros _.
    by apply Forall_app in Hmet as [? _].
Qed.

(** With the ports set by the constructor (445 and 9922), a list that already
    serves 445 only gains the metrics endpoint. *)
Example endpoints_default_ports :
  SMB.customize_container_endpoints
    (SMB.attributes Sample.ctx Sample.ident (Sample.raw [] "tank") (None, None)
       None)
    [mkEndPoint "10.0.0.1" 445]
  = [mkEndPoint "10.0.0.1" 445; mkEndPoint "0.0.0.0" 9922].
Proof. reflexivity. Qed.

(** ** Role names and sub-identities *)

Lemma customize_container_mounts_validated (self : SMB.t) (c : Config)
    (ctx : CephadmContext) (mounts : Py.odict string) :
  SMB._instance_cfg self = Some c ->
  exists mounts', SMB.customize_container_mounts ctx mounts self = Ok (mounts', self).
Proof.
  intros Hc. unfold SMB.customize_container_mounts, bind.
  rewrite (validate_validated self c Hc). unfold read at 1. cbv beta iota.
  rewrite (_cfg_validated self c Hc).
  destruct (clustered c); eexists; reflexivity.
Qed.

(** C10. The names from which the sub-identities are derived are [smbd],
    [winbindd], [config], [mustjoin], [configwatch], [smbmetrics],
    [ctdbMigrate], [ctdbMustHaveNode], [ctdbd] and [ctdbNodes]: the
    sub-identity of the init or sidecar container built for a role has the
    role's name as its component, so config-init gives [config] and
    ctdb-node-monitor gives [ctdbNodes], not the hyphenated labels. *)
Theorem role_names_sub_identity (default_image : string)
    (enable_shared_namespaces : list string -> string -> list Namespace -> list string)
    (ctx : CephadmContext) (self : SMB.t) (c : Config) (x : Container) :
  SMB._instance_cfg self = Some c ->
  map (fun r => name (mkContainer r (cfg x) (image x))) all_roles
  = ["smbd"; "winbindd"; "config"; "mustjoin"; "configwatch"; "smbmetrics";
     "ctdbMigrate"; "ctdbMustHaveNode"; "ctdbd"; "ctdbNodes"]
  /\ name (new ConfigInitContainer c) = "config"
  /\ name (new ConfigInitContainer c) <> "config-init"
  /\ name (new CTDBNodeMonitorContainer c) = "ctdbNodes"
  /\ name (new CTDBNodeMonitorContainer c) <> "ctdb-node-monitor"
  /\ (exists ic self',
        SMB._to_init_container default_image ctx x self = Ok (ic, self')
        /\ SMB.ic_identity ic = from_parent (SMB._identity self) (name x))
  /\ (exists sc self',
        SMB._to_sidecar_container default_image enable_shared_namespaces ctx x self
        = Ok (sc, self')
        /\ SMB.sc_identity sc = from_parent (SMB._identity self) (name x)).
Proof.
  intros Hc. split; [reflexivity |]. split; [reflexivity |].
  split; [discriminate |]. split; [reflexivity |]. split; [discriminate |].
  destruct (customize_container_mounts_validated self c ctx [] Hc) as [m Hm].
  split.
  - unfold SMB._to_init_container, bind. rewrite Hm.
    eexists _, _. split; reflexivity.
  - unfold SMB._to_sidecar_container, bind. rewrite Hm.
    destruct (container_engine ctx); eexists _, _; split; reflexivity.
Qed.

Lemma role_names_sub_identity_witness :
  SMB._instance_cfg (Sample.validated (Sample.cfg false true "" 0 0))
  = Some (Sample.cfg false true "" 0 0)
  /\ (exists ic self',
        SMB._to_init_container "quay.io/samba.org/samba-server:devbuilds-centos-amd64"
          Sample.ctx (new ConfigInitContainer (Sample.cfg false true "" 0 0))
          (Sample.validated (Sample.cfg false true "" 0 0))
        = Ok (ic, self')
        /\ subcomponent (SMB.ic_identity ic) = "config")
  /\ (exists sc self',
        SMB._to_sidecar_container
          "quay.io/samba.org/samba-server:devbuilds-centos-amd64"
          (fun cargs _ _ => cargs)
          Sample.ctx (new CTDBNodeMonitorContainer (Sample.cfg false true "" 0 0))
          (Sample.validated (Sample.cfg false true "" 0 0))
        = Ok (sc, self')
        /\ subcomponent (SMB.sc_identity sc) = "ctdbNodes").
Proof.
  split; [reflexivity |]. split.
  - destruct (role_names_sub_identity
                "quay.io/samba.org/samba-server:devbuilds-centos-amd64"
                (fun cargs _ _ => cargs) Sample.ctx
                (Sample.validated (Sample.cfg false true "" 0 0))
                (Sample.cfg false true "" 0 0)
                (new ConfigInitContainer (Sample.cfg false true "" 0 0)) eq_refl)
      as (_ & _ & _ & _ & _ & (ic & self' & Hrun & Hid) & _).
    exists ic, self'. split; [exact Hrun |]. rewrite Hid. reflexivity.
  - destruct (role_names_sub_identity
                "quay.io/samba.org/samba-server:devbuilds-centos-amd64"
                (fun cargs _ _ => cargs) Sample.ctx
                (Sample.validated (Sample.cfg false true "" 0 0))
                (Sample.cfg false true "" 0 0)
                (new CTDBNodeMonitorContainer (Sample.cfg false true "" 0 0)) eq_refl)
      as (_ & _ & _ & _ & _ & _ & (sc & self' & Hrun & Hid)).
    exists sc, self'. split; [exact Hrun |]. rewrite Hid. reflexivity.
Defined.

(** * Further properties of the module *)

(** ** The version probe *)

Lemma drop_prefix_spec (t s r : string) :
  Re.drop_prefix t s = Some r <-> s = t +:+ r.
Proof.
  revert s. induction t as [| a t IH]; intros s; simpl.
  - rewrite append_empty_str. split; congruence.
  - destruct s as [| b s]; [done |].
    rewrite append_cons_str. case_bool_decide as Hab.
    + subst b. rewrite IH. split; congruence.
    + split; [done | congruence].
Qed.

Lemma lstrip_split (s : string) :
  exists ws, s = ws +:+ Py.lstrip s /\ all_space ws = true.
Proof.
  induction s as [| ch s (ws & IH & Hws)]; simpl.
  - by exists "".
  - destruct (Py.isspace ch) eqn:Hch.
    + exists (String ch ws). rewrite append_cons_str, <- IH. simpl.
      by rewrite Hch, Hws.
    + by exists "".
Qed.

Lemma take_while_split (p : ascii -> bool) (s : string) :
  exists rest,
    s = Re.take_while p s +:+ rest
    /\ all_chars p (Re.take_while p s) = true
    /\ not_starting_with p rest = true.
Proof.
  induction s as [| ch s (rest & IH & Hall & Hrest)]; simpl.
  - by exists "".
  - destruct (p ch) eqn:Hch.
    + exists rest. rewrite append_cons_str, <- IH. simpl. by rewrite Hch, Hall.
    + exists (String ch s). simpl. by rewrite Hch.
Qed.

Lemma match_here_spec (s v : string) :
  Re.match_here s = Some v ->
  v <> ""
  /\ all_chars Re.version_char v = true
  /\ exists ws post,
       s = "Version" +:+ ws +:+ v +:+ post
       /\ all_space ws = true
       /\ not_starting_with Re.version_char post = true.
Proof.
  unfold Re.match_here.
  destruct (Re.drop_prefix "Version" s) as [rest |] eqn:Hpre; [| done].
  apply drop_prefix_spec in Hpre.
  destruct (lstrip_split rest) as (ws & Hrest & Hws).
  destruct (take_while_split Re.version_char (Py.lstrip rest))
    as (post & Htw & Hall & Hpost).
  destruct (Re.take_while Re.version_char (Py.lstrip rest)) as [| c w];
    [done |].
  intros [= <-]. split; [done |]. split; [done |].
  exists ws, post. by rewrite <- Htw, <- Hrest.
Qed.

Lemma search_finds (s v : string) :
  Re.search s = Some v -> exists pre s', s = pre +:+ s' /\ Re.match_here s' = Some v.
Proof.
  induction s as [| ch s IH]; cbn [Re.search].
  - done.
  - destruct (Re.match_here (String ch s)) eqn:Hm.
    + intros [= ->]. by exists "", (String ch s).
    + intros (pre & s' & -> & Hs')%IH. by exists (String ch pre), s'.
Qed.

(** X1. The version probe returns nothing when the command fails or when its
    output does not contain [Version]; a version it returns is a non-empty
    string of digits and dots that stands in the output after [Version] and
    optional white space, and is not followed by a further digit or dot. *)
Theorem get_version_result (out : string) (ret : Z) :
  (ret <> 0 -> SMB.get_version out ret = None)
  /\ (contains "Version" out = false -> SMB.get_version out ret = None)
  /\ (forall v,
        SMB.get_version out ret = Some v ->
        ret = 0
        /\ v <> ""
        /\ all_chars Re.version_char v = true
        /\ exists pre ws post,
             out = pre +:+ "Version" +:+ ws +:+ v +:+ post
             /\ all_space ws = true
             /\ not_starting_with Re.version_char post = true).
Proof.
  assert (Hsome : forall v,
            SMB.get_version out ret = Some v ->
            ret = 0
            /\ v <> ""
            /\ all_chars Re.version_char v = true
            /\ exists pre ws post,
                 out = pre +:+ "Version" +:+ ws +:+ v +:+ post
                 /\ all_space ws = true
                 /\ not_starting_with Re.version_char post = true).
  { intros v. unfold SMB.get_version.
    destruct (ret =? 0) eqn:Hret; [| done]. apply Z.eqb_eq in Hret.
    destruct (Re.search out) as [g |] eqn:Hs; [| done]. intros [= ->].
    apply search_finds in Hs as (pre & s' & -> & Hm).
    apply match_here_spec in Hm as (Hne & Hall & ws & post & -> & Hws & Hpost).
    split; [done |]. split; [done |]. split; [done |].
    by exists pre, ws, post. }
  split; [| split; [| done]].
  - intros Hret. unfold SMB.get_version.
    destruct (ret =? 0) eqn:E; [| done]. by apply Z.eqb_eq in E.
  - intros Hno. destruct (SMB.get_version out ret) as [v |] eqn:Hv; [| done].
    destruct (Hsome v eq_refl) as (_ & _ & _ & pre & ws & post & -> & _).
    assert (Hc : contains "Version" (pre +:+ "Version" +:+ ws +:+ v +:+ post) = true).
    { apply contains_spec. by exists pre, (ws +:+ v +:+ post). }
    congruence.
Qed.

(** The probe on an output of [smbd -V]. *)
Example get_version_of_smbd :
  SMB.get_version ("Version 4.19.2-Debian" +:+ SMB.newline) 0 = Some "4.19.2".
Proof. reflexivity. Qed.

(** ** What validation stores *)

(** X2. The order of the failures of validation on a freshly constructed
    object.  When the metrics port does not convert, validation raises the
    exception of [int()], whatever else the raw config holds.  When it
    converts or is absent, validation fails with
    [invalid instance (cluster) id] whenever the instance id is absent or
    empty, and with [invalid configuration source uri] whenever the id is
    given and the source-config locator is absent or empty; and when id,
    locator and features pass, it raises the exception of
    [ClusterPublicIP.convert] on a malformed public address record. *)
Theorem validate_required_fields (ctx : CephadmContext)
    (ident : DaemonIdentity.t) (raw : RawConfigs.t)
    (ck : option string * option string) (ri : option (Z * Z)) (self : SMB.t) :
  SMB.__init__ ctx ident raw ck ri = Ok self ->
  (forall e,
     Int.int (get (RawConfigs.metrics_port raw) (PyStr "0")) = Raise e ->
     SMB.validate self = Raise e)
  /\ (forall port,
        Int.int (get (RawConfigs.metrics_port raw) (PyStr "0")) = Ok port ->
        (RawConfigs.cluster_id raw = None \/ RawConfigs.cluster_id raw = Some "" ->
         SMB.validate self = Raise (Error "invalid instance (cluster) id"))
        /\ (Py.str_bool (get (RawConfigs.cluster_id raw) "") = true ->
            RawConfigs.config_uri raw = None \/ RawConfigs.config_uri raw = Some "" ->
            SMB.validate self = Raise (Error "invalid configuration source uri"))
        /\ (Py.str_bool (get (RawConfigs.cluster_id raw) "") = true ->
            Py.str_bool (get (RawConfigs.config_uri raw) "") = true ->
            Forall (fun f => Features.valid f = true)
                   (get (RawConfigs.features raw) []) ->
            forall e,
              for_result convert (get (RawConfigs.cluster_public_addrs raw) [])
              = Raise e ->
              SMB.validate self = Raise e)).
Proof.
  intros Hnew. apply constructor_inv in Hnew as ->.
  rewrite validate_fresh. split.
  - by intros e ->.
  - intros port ->. split; [| split].
    + by intros [-> | ->].
    + intros ->. by intros [-> | ->].
    + intros -> -> Hall e ->. apply no_invalid_features in Hall.
      by rewrite Hall.
Qed.

Lemma validate_required_fields_witness :
  SMB.validate
    (SMB.attributes Sample.ctx Sample.ident
       (RawConfigs.mk None (Some "rados://pool/ns/cfg") None None None
          (Some ["bogus"]) None None None None (Some (PyStr "abc")) None None
          None)
       (None, None) None)
  = Raise ValueError
  /\ SMB.validate
       (SMB.attributes Sample.ctx Sample.ident
          (RawConfigs.mk None (Some "rados://pool/ns/cfg") None None None
             (Some ["domain"]) None None None None None None None None)
          (None, None) None)
     = Raise (Error "invalid instance (cluster) id")
  /\ SMB.validate
       (SMB.attributes Sample.ctx Sample.ident
          (RawConfigs.mk (Some "tank") (Some "") None None None
             (Some ["bogus"]) None None None None (Some (PyInt 9922)) None None
             None)
          (None, None) None)
     = Raise (Error "invalid configuration source uri")
  /\ SMB.validate
       (SMB.attributes Sample.ctx Sample.ident
          (RawConfigs.mk (Some "tank") (Some "rados://pool/ns/cfg") None None
             None (Some ["domain"]) None None None None None None None
             (Some [PyDict [("address", PyStr "192.168.7.1/24")]]))
          (None, None) None)
     = Raise (KeyError "destinations").
Proof.
  split; [| split; [| split]].
  - apply (proj1 (validate_required_fields Sample.ctx Sample.ident
                    (RawConfigs.mk None (Some "rados://pool/ns/cfg") None None
                       None (Some ["bogus"]) None None None None
                       (Some (PyStr "abc")) None None None)
                    (None, None) None _ eq_refl)).
    reflexivity.
  - apply (proj1 (proj2 (validate_required_fields Sample.ctx Sample.ident
                    (RawConfigs.mk None (Some "rados://pool/ns/cfg") None None
                       None (Some ["domain"]) None None None None None None
                       None None)
                    (None, None) None _ eq_refl) 0 eq_refl)).
    by left.
  - apply (proj1 (proj2 (proj2 (validate_required_fields Sample.ctx Sample.ident
                    (RawConfigs.mk (Some "tank") (Some "") None None None
                       (Some ["bogus"]) None None None None (Some (PyInt 9922))
                       None None None)
                    (None, None) None _ eq_refl) 9922 eq_refl)));
      [reflexivity |].
    by right.
  - apply (proj2 (proj2 (proj2 (validate_required_fields Sample.ctx Sample.ident
                    (RawConfigs.mk (Some "tank") (Some "rados://pool/ns/cfg")
                       None None None (Some ["domain"]) None None None None
                       None None None
                       (Some [PyDict [("address", PyStr "192.168.7.1/24")]]))
                    (None, None) None _ eq_refl) 0 eq_refl)));
      [reflexivity | reflexivity | repeat constructor | reflexivity].
Defined.

Lemma validate_fresh_inv ctx ident raw ck ri self' :
  SMB.validate (SMB.attributes ctx ident raw ck ri) = Ok (tt, self') ->
  Py.str_bool (get (RawConfigs.cluster_id raw) "") = true
  /\ Py.str_bool (get (RawConfigs.config_uri raw) "") = true
  /\ Forall (fun f => Features.valid f = true) (get (RawConfigs.features raw) [])
  /\ exists c,
       self' = SMB.set_validated c (get (RawConfigs.files raw) [])
                 (if Py.list_bool (get (RawConfigs.cluster_public_addrs raw) [])
                  then _NetworkMapper.load (_NetworkMapper.__init__ ctx)
                  else _NetworkMapper.__init__ ctx)
                 (SMB.attributes ctx ident raw ck ri)
       /\ identity c = ident
       /\ instance_id c = get (RawConfigs.cluster_id raw) ""
       /\ source_config c = get (RawConfigs.config_uri raw) ""
       /\ vhostname c
          = (if Py.str_bool (get (RawConfigs.virtual_hostname raw) "")
             then get (RawConfigs.virtual_hostname raw) ""
             else get (RawConfigs.cluster_id raw) "" +:+ "-" +:+ getfqdn ctx)
       /\ (samba_debug_level c, debug_delay c, ctdb_log_level c) = (0, 0, "")
       /\ (rank c, rank_generation c) = default (-1, -1) ri
       /\ smb_port c = 445
       /\ length (cluster_public_addrs c)
          = length (get (RawConfigs.cluster_public_addrs raw) []).
Proof.
  rewrite validate_fresh.
  destruct (Int.int (get (RawConfigs.metrics_port raw) (PyStr "0")))
    as [port | e]; [| done].
  destruct (Py.str_bool (get (RawConfigs.cluster_id raw) "")); [| done].
  destruct (Py.str_bool (get (RawConfigs.config_uri raw) "")); [| done].
  simpl.
  destruct (elements (SMB.invalid_features_of (get (RawConfigs.features raw) [])))
    eqn:Hel; [| done].
  simpl.
  destruct (for_result convert (get (RawConfigs.cluster_public_addrs raw) []))
    as [addrs | e] eqn:Haddrs; [| done].
  apply for_result_length in Haddrs.
  intros [= <-]. split; [done |]. split; [done |].
  split; [by apply no_invalid_features |].
  eexists. split.
  { f_equal.
    destruct addrs, (get (RawConfigs.cluster_public_addrs raw) []); done. }
  simpl.
  destruct (Py.str_bool (get (RawConfigs.virtual_hostname raw) ""));
    by destruct (default (-1, -1) ri).
Qed.

(** ** Arguments built by loops *)

Lemma foldl_append_map {A B} (f : A -> B) (acc : list B) (l : list A) :
  foldl (fun acc x => acc ++ [f x]) acc l = acc ++ map f l.
Proof.
  revert acc. induction l as [| x l IH]; intros acc; simpl.
  - by rewrite app_nil_r.
  - by rewrite IH, <- app_assoc.
Qed.

Lemma container_dns_args_eq (c : Config) :
  _container_dns_args c
  = map (fun dns => "--dns=" +:+ dns) (custom_dns c)
    ++ (if Py.str_bool (vhostname c) then ["--hostname=" +:+ vhostname c] else []).
Proof.
  unfold _container_dns_args. rewrite foldl_append_map. simpl.
  destruct (Py.str_bool (vhostname c)); [done | by rewrite app_nil_r].
Qed.

(** X3. The container-level flags: the DNS arguments are one [--dns=] per
    custom DNS entry, in order, then [--hostname=] if a virtual hostname is
    set; must-join adds [--network=host] after them exactly when clustered;
    smbd puts its [--publish=] flags (SMB port, then metrics port, each if
    non-zero) before them; ctdbd gets the two capabilities and every other
    role no flag at all. *)
Theorem container_flags (c : Config) (r : RoleClass) (img : string) :
  container_args (mkContainer r c img)
  = match r with
    | SMBDContainer =>
        (if Py.int_bool (smb_port c)
         then ["--publish=" +:+ Py.str (smb_port c) +:+ ":" +:+ Py.str (smb_port c)]
         else [])
        ++ (if Py.int_bool (metrics_port c)
            then ["--publish=" +:+ Py.str (metrics_port c) +:+ ":"
                  +:+ Py.str (metrics_port c)]
            else [])
        ++ map (fun dns => "--dns=" +:+ dns) (custom_dns c)
        ++ (if Py.str_bool (vhostname c)
            then ["--hostname=" +:+ vhostname c] else [])
    | MustJoinContainer =>
        map (fun dns => "--dns=" +:+ dns) (custom_dns c)
        ++ (if Py.str_bool (vhostname c)
            then ["--hostname=" +:+ vhostname c] else [])
        ++ (if clustered c then ["--network=host"] else [])
    | CTDBDaemonContainer => ["--cap-add=NET_ADMIN"; "--cap-add=NET_RAW"]
    | _ => []
    end.
Proof.
  destruct r; try reflexivity; unfold container_args; cbn [cls cfg].
  - rewrite container_dns_args_eq.
    destruct (Py.int_bool (smb_port c)), (Py.int_bool (metrics_port c)); done.
  - unfold SambaNetworkedInitContainer_.container_args. cbn [cfg].
    rewrite container_dns_args_eq, <- app_assoc.
    destruct (clustered c); [done | by rewrite !app_nil_r].
Qed.

(** X4. The arguments of must-join are the common debug arguments, the
    [--skip-if] gate exactly when clustered, [must-join], and one [-j] per
    join source in order; those of ctdb-migrate always carry the gate. *)
Theorem must_join_args (c : Config) (img : string) :
  args (mkContainer MustJoinContainer c img)
  = SambaContainerCommon_.args (mkContainer MustJoinContainer c img)
    ++ (if clustered c then ["--skip-if=env:NODE_NUMBER!=0"] else [])
    ++ ["must-join"]
    ++ map (fun join_src => "-j" +:+ join_src) (join_sources c)
  /\ "--skip-if=env:NODE_NUMBER!=0"
       ∈ args (mkContainer CTDBMigrateInitContainer c img).
Proof.
  split.
  - unfold args. cbn [cls cfg]. rewrite foldl_append_map.
    destruct (clustered c); by rewrite <- ?app_assoc.
  - unfold args. cbn [cls]. rewrite elem_of_app. right.
    apply elem_of_cons. by left.
Qed.

(** ** The environment of a role *)

Lemma samba_envs_exact (x : Container) :
  SambaContainerCommon_.envs x
  = [("SAMBA_CONTAINER_ID", instance_id (cfg x));
     ("SAMBACC_CONFIG", Json.dumps (Json.of_strs (config_uris (cfg x))));
     ("SAMBACC_CTDB", "ctdb-is-experimental")]
    ++ (if Py.str_bool (ceph_config_entity (cfg x))
        then [("SAMBACC_CEPH_ID", "name=" +:+ ceph_config_entity (cfg x))]
        else [])
    ++ (if rank (cfg x) >=? 0
        then [("RANK", Py.str (rank (cfg x)));
              ("RANK_GENERATION", Py.str (rank (cfg x)));
              ("NODE_NUMBER", Py.str (rank (cfg x)))]
        else []).
Proof.
  unfold SambaContainerCommon_.envs.
  destruct (Py.str_bool (ceph_config_entity (cfg x))), (rank (cfg x) >=? 0);
    reflexivity.
Qed.

(** X5. The environment of every role built on the samba container is, in
    this order and whatever the role: SAMBA_CONTAINER_ID, SAMBACC_CONFIG,
    SAMBACC_CTDB, then SAMBACC_CEPH_ID exactly when a ceph auth entity is
    configured, then RANK, RANK_GENERATION and NODE_NUMBER exactly when
    rank >= 0; no variable is set twice. *)
Theorem samba_environment (x : Container) :
  is_samba_container (cls x) = true ->
  envs x
  = [("SAMBA_CONTAINER_ID", instance_id (cfg x));
     ("SAMBACC_CONFIG", Json.dumps (Json.of_strs (config_uris (cfg x))));
     ("SAMBACC_CTDB", "ctdb-is-experimental")]
    ++ (if Py.str_bool (ceph_config_entity (cfg x))
        then [("SAMBACC_CEPH_ID", "name=" +:+ ceph_config_entity (cfg x))]
        else [])
    ++ (if rank (cfg x) >=? 0
        then [("RANK", Py.str (rank (cfg x)));
              ("RANK_GENERATION", Py.str (rank (cfg x)));
              ("NODE_NUMBER", Py.str (rank (cfg x)))]
        else [])
  /\ envs_list x = map (fun kv => kv.1 +:+ "=" +:+ kv.2) (envs x)
  /\ NoDup (keys (envs x)).
Proof.
  intros Hsamba. destruct (samba_envs_dispatch x Hsamba) as [-> ->].
  split; [apply samba_envs_exact |]. split; [done |].
  rewrite samba_envs_exact.
  destruct (Py.str_bool (ceph_config_entity (cfg x))), (rank (cfg x) >=? 0);
    apply (bool_decide_unpack _); reflexivity.
Qed.

Lemma samba_environment_witness :
  is_samba_container (cls (new WinbindContainer (Sample.cfg true false "" (-1) (-1))))
  = true
  /\ envs_list (new WinbindContainer (Sample.cfg true false "" (-1) (-1)))
     = map (fun kv => kv.1 +:+ "=" +:+ kv.2)
           [("SAMBA_CONTAINER_ID", "tank");
            ("SAMBACC_CONFIG",
             Json.dumps (Json.of_strs ["rados://pool/ns/cfg";
                                       "rados://pool/ns/users"]));
            ("SAMBACC_CTDB", "ctdb-is-experimental");
            ("SAMBACC_CEPH_ID", "name=client.smb")].
Proof.
  split; [reflexivity |].
  destruct (samba_environment
              (new WinbindContainer (Sample.cfg true false "" (-1) (-1))) eq_refl)
    as (Henv & Hlist & _).
  rewrite Hlist, Henv. reflexivity.
Defined.

Lemma no_rank_variables (r : RoleClass) (c : Config) (img k : string) :
  rank c < 0 ->
  k ∈ ["RANK"; "RANK_GENERATION"; "NODE_NUMBER"] ->
  Py.getitem k (envs (mkContainer r c img)) = None.
Proof.
  intros Hneg Hk.
  assert (Hge : (rank c >=? 0) = false).
  { destruct (rank c >=? 0) eqn:E; [| done]. apply Z.geb_le in E. lia. }
  destruct (is_samba_container r) eqn:Hs.
  - destruct (samba_envs_dispatch (mkContainer r c img) Hs) as [-> _].
    rewrite samba_envs_exact. cbn [cfg]. rewrite Hge.
    repeat (apply elem_of_cons in Hk as [-> | Hk]);
      [| | | by apply elem_of_nil in Hk];
      by destruct (Py.str_bool (ceph_config_entity c)).
  - by destruct r.
Qed.

(** ** The Config of a validated object *)

Lemma str_bool_nonempty (s : string) : Py.str_bool s = true <-> s <> "".
Proof. by destruct s. Qed.

(** X6. After a successful validation of a fresh object the stored Config
    has a non-empty instance id, source-config locator and virtual hostname:
    a virtual hostname that is absent or empty is replaced by the instance
    id, a dash and the host's fully qualified name, a given one is kept; so
    smbd is always started with a [--hostname=] flag. *)
Theorem validated_hostname (ctx : CephadmContext) (ident : DaemonIdentity.t)
    (raw : RawConfigs.t) (ck : option string * option string)
    (ri : option (Z * Z)) (self self' : SMB.t) :
  SMB.__init__ ctx ident raw ck ri = Ok self ->
  SMB.validate self = Ok (tt, self') ->
  exists c,
    SMB._instance_cfg self' = Some c
    /\ instance_id c <> "" /\ source_config c <> "" /\ vhostname c <> ""
    /\ (RawConfigs.virtual_hostname raw = None
        \/ RawConfigs.virtual_hostname raw = Some "" ->
        vhostname c = instance_id c +:+ "-" +:+ getfqdn ctx)
    /\ (forall h, RawConfigs.virtual_hostname raw = Some h -> h <> "" ->
        vhostname c = h)
    /\ ("--hostname=" +:+ vhostname c) ∈ container_args (new SMBDContainer c).
Proof.
  intros Hnew Hval. apply constructor_inv in Hnew as ->.
  apply validate_fresh_inv in Hval
    as (Hid & Huri & _ & c & -> & _ & Hcid & Hcuri & Hvh & _).
  exists c. split; [done |].
  apply str_bool_nonempty in Hid, Huri.
  assert (Hne : vhostname c <> "").
  { rewrite Hvh.
    destruct (Py.str_bool (get (RawConfigs.virtual_hostname raw) "")) eqn:E.
    - by apply str_bool_nonempty.
    - destruct (get (RawConfigs.cluster_id raw) ""); done. }
  split; [congruence |]. split; [congruence |]. split; [done |].
  split; [| split].
  - rewrite Hvh, Hcid. by intros [-> | ->].
  - intros h Hraw Hh. rewrite Hvh, Hraw. simpl.
    apply str_bool_nonempty in Hh. by rewrite Hh.
  - unfold container_args. cbn [cls cfg new].
    rewrite container_dns_args_eq, !elem_of_app. right. right.
    apply str_bool_nonempty in Hne. rewrite Hne. apply elem_of_cons. by left.
Qed.

Lemma validated_hostname_witness :
  exists c,
    SMB._instance_cfg
      (SMB.set_validated (Sample.cfg false false " " (-1) (-1)) []
         (_NetworkMapper.load (_NetworkMapper.__init__ Sample.ctx))
         (SMB.attributes Sample.ctx Sample.ident (Sample.raw [] "tank")
            (None, None) None))
    = Some c
    /\ vhostname c = "tank-node1.example.com".
Proof.
  destruct (validated_hostname Sample.ctx Sample.ident (Sample.raw [] "tank")
              (None, None) None _
              (SMB.set_validated (Sample.cfg false false " " (-1) (-1)) []
                 (_NetworkMapper.load (_NetworkMapper.__init__ Sample.ctx))
                 (SMB.attributes Sample.ctx Sample.ident (Sample.raw [] "tank")
                    (None, None) None))
              eq_refl eq_refl)
    as (c & Hc & _ & _ & _ & Hsyn & _).
  exists c. split; [exact Hc |]. rewrite (Hsyn (or_introl eq_refl)).
  injection Hc as <-. reflexivity.
Defined.

(** X7. Validation never sets the debug fields: the stored Config has
    samba_debug_level 0, debug_delay 0 and an empty ctdb_log_level, so no
    role built on the samba container gets a [--samba-debug-level] or
    [--debug-delay] argument (config-init runs with [init] alone) and the
    cluster descriptor has no [log_level] entry. *)
Theorem validated_without_debug (ctx : CephadmContext)
    (ident : DaemonIdentity.t) (raw : RawConfigs.t)
    (ck : option string * option string) (ri : option (Z * Z))
    (self self' : SMB.t) :
  SMB.__init__ ctx ident raw ck ri = Ok self ->
  SMB.validate self = Ok (tt, self') ->
  exists c,
    SMB._instance_cfg self' = Some c
    /\ samba_debug_level c = 0 /\ debug_delay c = 0 /\ ctdb_log_level c = ""
    /\ (forall r img, SambaContainerCommon_.args (mkContainer r c img) = [])
    /\ args (new ConfigInitContainer c) = ["init"]
    /\ Json.member "ctdb" (SMB.ctdb_stub_config self' c) ≫= Json.member "log_level"
       = None.
Proof.
  intros Hnew Hval. apply constructor_inv in Hnew as ->.
  apply validate_fresh_inv in Hval
    as (_ & _ & _ & c & -> & _ & _ & _ & _ & Hdbg & _).
  injection Hdbg as Hlevel Hdelay Hlog.
  exists c. split; [done |]. split; [done |]. split; [done |]. split; [done |].
  assert (Hargs : forall r img, SambaContainerCommon_.args (mkContainer r c img) = []).
  { intros r img. unfold SambaContainerCommon_.args. cbn [cfg].
    by rewrite Hlevel, Hdelay. }
  split; [done |]. split.
  - unfold args, new. cbn [cls]. by rewrite Hargs.
  - unfold SMB.ctdb_stub_config. by rewrite Hlog.
Qed.

Lemma validated_without_debug_witness :
  exists c,
    SMB._instance_cfg
      (SMB.set_validated (Sample.cfg false true " " 1 4) []
         (_NetworkMapper.load (_NetworkMapper.__init__ Sample.ctx))
         (SMB.attributes Sample.ctx Sample.ident
            (Sample.raw ["clustered"] "tank") (None, None) (Some (1, 4))))
    = Some c
    /\ args (new ConfigInitContainer c) = ["init"].
Proof.
  destruct (validated_without_debug Sample.ctx Sample.ident
              (Sample.raw ["clustered"] "tank") (None, None) (Some (1, 4)) _
              (SMB.set_validated (Sample.cfg false true " " 1 4) []
                 (_NetworkMapper.load (_NetworkMapper.__init__ Sample.ctx))
                 (SMB.attributes Sample.ctx Sample.ident
                    (Sample.raw ["clustered"] "tank") (None, None)
                    (Some (1, 4))))
              eq_refl eq_refl)
    as (c & Hc & _ & _ & _ & _ & Hinit & _).
  exists c. split; [exact Hc | exact Hinit].
Defined.

(** X8. The rank of the stored Config is the rank info of the context, or
    (-1, -1) when there is none; in that case no role has RANK,
    RANK_GENERATION or NODE_NUMBER in its environment. *)
Theorem validated_rank (ctx : CephadmContext) (ident : DaemonIdentity.t)
    (raw : RawConfigs.t) (ck : option string * option string)
    (ri : option (Z * Z)) (self self' : SMB.t) :
  SMB.__init__ ctx ident raw ck ri = Ok self ->
  SMB.validate self = Ok (tt, self') ->
  exists c,
    SMB._instance_cfg self' = Some c
    /\ (forall rk rg, ri = Some (rk, rg) -> rank c = rk /\ rank_generation c = rg)
    /\ (ri = None ->
        rank c = -1 /\ rank_generation c = -1
        /\ forall r img k,
             k ∈ ["RANK"; "RANK_GENERATION"; "NODE_NUMBER"] ->
             Py.getitem k (envs (mkContainer r c img)) = None).
Proof.
  intros Hnew Hval. apply constructor_inv in Hnew as ->.
  apply validate_fresh_inv in Hval
    as (_ & _ & _ & c & -> & _ & _ & _ & _ & _ & Hrank & _).
  exists c. split; [done |]. split.
  - intros rk rg ->. simpl in Hrank. by injection Hrank.
  - intros ->. simpl in Hrank. injection Hrank as Hrk Hrg.
    split; [done |]. split; [done |].
    intros r img k Hk. apply no_rank_variables; [lia | done].
Qed.

Lemma validated_rank_witness :
  exists c,
    SMB._instance_cfg
      (SMB.set_validated (Sample.cfg false false " " (-1) (-1)) []
         (_NetworkMapper.load (_NetworkMapper.__init__ Sample.ctx))
         (SMB.attributes Sample.ctx Sample.ident (Sample.raw [] "tank")
            (None, None) None))
    = Some c
    /\ rank c = -1
    /\ Py.getitem "NODE_NUMBER" (envs (new SMBDContainer c)) = None.
Proof.
  destruct (validated_rank Sample.ctx Sample.ident (Sample.raw [] "tank")
              (None, None) None _
              (SMB.set_validated (Sample.cfg false false " " (-1) (-1)) []
                 (_NetworkMapper.load (_NetworkMapper.__init__ Sample.ctx))
                 (SMB.attributes Sample.ctx Sample.ident (Sample.raw [] "tank")
                    (None, None) None))
              eq_refl eq_refl)
    as (c & Hc & _ & Hnone).
  destruct (Hnone eq_refl) as (Hrk & _ & Henv).
  exists c. split; [exact Hc |]. split; [exact Hrk |].
  apply Henv. apply elem_of_cons. right. apply elem_of_cons. right.
  apply elem_of_cons. by left.
Defined.

(** X9. Validation fetches the host network inventory exactly when at least
    one cluster public address is configured; otherwise the mapper keeps
    its empty inventory.  The raw files are stored and no layout is cached
    yet. *)
Theorem validated_inventory (ctx : CephadmContext) (ident : DaemonIdentity.t)
    (raw : RawConfigs.t) (ck : option string * option string)
    (ri : option (Z * Z)) (self self' : SMB.t) :
  SMB.__init__ ctx ident raw ck ri = Ok self ->
  SMB.validate self = Ok (tt, self') ->
  _NetworkMapper._networks (SMB._network_mapper self')
  = (if Py.list_bool (get (RawConfigs.cluster_public_addrs raw) [])
     then list_networks ctx else ∅)
  /\ SMB._files self' = get (RawConfigs.files raw) []
  /\ SMB._cached_layout self' = None.
Proof.
  intros Hnew Hval. apply constructor_inv in Hnew as ->.
  apply validate_fresh_inv in Hval as (_ & _ & _ & c & -> & _).
  simpl. by destruct (Py.list_bool (get (RawConfigs.cluster_public_addrs raw) [])).
Qed.

Lemma validated_inventory_witness :
  _NetworkMapper._networks
    (SMB._network_mapper
       (SMB.set_validated (Sample.cfg false false " " (-1) (-1)) []
          (_NetworkMapper.load (_NetworkMapper.__init__ Sample.ctx))
          (SMB.attributes Sample.ctx Sample.ident (Sample.raw [] "tank")
             (None, None) None)))
  = list_networks Sample.ctx.
Proof.
  exact (proj1 (validated_inventory Sample.ctx Sample.ident
                  (Sample.raw [] "tank") (None, None) None _
                  (SMB.set_validated (Sample.cfg false false " " (-1) (-1)) []
                     (_NetworkMapper.load (_NetworkMapper.__init__ Sample.ctx))
                     (SMB.attributes Sample.ctx Sample.ident
                        (Sample.raw [] "tank") (None, None) None))
                  eq_refl eq_refl)).
Defined.

(** ** Memoization and failure of the accessors *)

(** X10. Validation is idempotent: once it has succeeded the Config is
    stored, a further validation changes nothing and [_cfg] returns the
    stored Config; the raw configuration and the two ports are never
    modified by it. *)
Theorem validate_idempotent (self self' : SMB.t) :
  SMB.validate self = Ok (tt, self') ->
  SMB.validate self' = Ok (tt, self')
  /\ (exists c, SMB._instance_cfg self' = Some c /\ SMB._cfg self' = Ok (c, self'))
  /\ SMB._raw_configs self' = SMB._raw_configs self
  /\ SMB.smb_port self' = SMB.smb_port self
  /\ SMB.metrics_port self' = SMB.metrics_port self.
Proof.
  intros Hval.
  assert (Hsome : exists c, SMB._instance_cfg self' = Some c
                            /\ SMB._raw_configs self' = SMB._raw_configs self
                            /\ SMB.smb_port self' = SMB.smb_port self
                            /\ SMB.metrics_port self' = SMB.metrics_port self).
  { revert Hval. unfold SMB.validate, bind, read, lift. simpl.
    destruct (SMB._instance_cfg self) as [c0 |] eqn:Hc0.
    - intros [= <-]. by exists c0.
    - destruct (Int.int _); [| done].
      destruct (Py.str_bool (get (RawConfigs.cluster_id (SMB._raw_configs self)) ""));
        [| done].
      destruct (Py.str_bool (get (RawConfigs.config_uri (SMB._raw_configs self)) ""));
        [| done].
      simpl. destruct (Py.list_bool _); [done |].
      destruct (for_result convert _); [| done].
      destruct (SMB._rank_info self). intros [= <-]. by eexists. }
  destruct Hsome as (c & Hc & Hraw & Hp1 & Hp2).
  split; [by apply (validate_validated self' c) |].
  split; [| done].
  exists c. split; [done |]. by apply _cfg_validated.
Qed.

Lemma validate_idempotent_witness :
  SMB.validate
    (SMB.set_validated (Sample.cfg false false " " (-1) (-1)) []
       (_NetworkMapper.load (_NetworkMapper.__init__ Sample.ctx))
       (SMB.attributes Sample.ctx Sample.ident (Sample.raw [] "tank")
          (None, None) None))
  = Ok (tt,
        SMB.set_validated (Sample.cfg false false " " (-1) (-1)) []
          (_NetworkMapper.load (_NetworkMapper.__init__ Sample.ctx))
          (SMB.attributes Sample.ctx Sample.ident (Sample.raw [] "tank")
             (None, None) None)).
Proof.
  exact (proj1 (validate_idempotent
                  (SMB.attributes Sample.ctx Sample.ident (Sample.raw [] "tank")
                     (None, None) None)
                  _ eq_refl)).
Defined.

(** X11. The layout is memoized: whenever [_layout] succeeds the layout is
    cached, a further call returns the same layout and changes nothing, and
    if no layout was cached before, the one returned is the layout built
    from the stored Config. *)
Theorem layout_memoized (self self' : SMB.t) (l : ContainerLayout) :
  SMB._layout self = Ok (l, self') ->
  SMB._cached_layout self' = Some l
  /\ SMB._layout self' = Ok (l, self')
  /\ (SMB._cached_layout self = None ->
      exists c, SMB._instance_cfg self' = Some c /\ l = build_layout c).
Proof.
  unfold SMB._layout at 1. unfold bind, read. simpl.
  destruct (SMB._cached_layout self) as [l0 |] eqn:Hl0.
  - intros [= <- <-]. split; [done |]. split; [| done].
    by apply _layout_memoized.
  - unfold bind.
    destruct (SMB._cfg self) as [[c s1] | e] eqn:Hcfg; [| done].
    intros [= <- <-].
    split; [done |]. split; [by apply _layout_memoized |].
    intros _. exists c. split; [| done].
    revert Hcfg. unfold SMB._cfg, bind, read.
    destruct (SMB.validate self) as [[[] s2] | e]; [| done].
    destruct (SMB._instance_cfg s2) as [c2 |] eqn:Hc2; [| done].
    by intros [= <- <-].
Qed.

Lemma layout_memoized_witness :
  exists l self',
    SMB._layout
      (SMB.attributes Sample.ctx Sample.ident (Sample.raw ["domain"] "tank")
         (None, None) None)
    = Ok (l, self')
    /\ SMB._layout self' = Ok (l, self')
    /\ classes (supplemental l) = [ConfigWatchContainer; WinbindContainer].
Proof.
  exists (build_layout (Sample.cfg true false " " (-1) (-1))),
    (SMB.set_cached_layout (build_layout (Sample.cfg true false " " (-1) (-1)))
       (SMB.set_validated (Sample.cfg true false " " (-1) (-1)) []
          (_NetworkMapper.load (_NetworkMapper.__init__ Sample.ctx))
          (SMB.attributes Sample.ctx Sample.ident
             (Sample.raw ["domain"] "tank") (None, None) None))).
  split; [reflexivity |]. split; [| reflexivity].
  exact (proj1 (proj2 (layout_memoized
                         (SMB.attributes Sample.ctx Sample.ident
                            (Sample.raw ["domain"] "tank") (None, None) None)
                         _ _ eq_refl))).
Defined.

(** X12. A validation error reaches every caller: when validation fails,
    the mount and data-directory operations fail with the same exception,
    and so do the layout and everything derived from it (process
    arguments, environment, container flags, init and sidecar containers)
    unless a layout had been cached. *)
Theorem validation_error_propagates (default_image : string)
    (enable_shared_namespaces : list string -> string -> list Namespace -> list string)
    (ctx : CephadmContext) (self : SMB.t) (e : exn) :
  SMB.validate self = Raise e ->
  SMB._cfg self = Raise e
  /\ (forall mounts, SMB.customize_container_mounts ctx mounts self = Raise e)
  /\ (forall dir uid gid, SMB.prepare_data_dir dir uid gid self = Raise e)
  /\ (SMB._cached_layout self = None ->
      SMB._layout self = Raise e
      /\ (forall l, SMB.customize_process_args l self = Raise e)
      /\ (forall l, SMB.customize_container_envs l self = Raise e)
      /\ (forall l, SMB.customize_container_args l self = Raise e)
      /\ SMB.init_containers default_image ctx self = Raise e
      /\ SMB.sidecar_containers default_image enable_shared_namespaces ctx self
         = Raise e).
Proof.
  intros Hval.
  assert (Hcfg : SMB._cfg self = Raise e).
  { unfold SMB._cfg, bind. by rewrite Hval. }
  split; [done |]. split; [| split].
  - intros mounts. unfold SMB.customize_container_mounts, bind. by rewrite Hval.
  - intros dir uid gid. unfold SMB.prepare_data_dir, bind. by rewrite Hval.
  - intros Hnone.
    assert (Hlay : SMB._layout self = Raise e).
    { unfold SMB._layout, bind, read. simpl. rewrite Hnone.
      unfold bind. by rewrite Hcfg. }
    split; [done |].
    unfold SMB.customize_process_args, SMB.customize_container_envs,
      SMB.customize_container_args, SMB.init_containers,
      SMB.sidecar_containers, bind.
    by rewrite Hlay.
Qed.

Lemma validation_error_propagates_witness :
  SMB.validate
    (SMB.attributes Sample.ctx Sample.ident (Sample.raw ["bogus"] "tank")
       (None, None) None)
  = Raise (Error "invalid instance features: bogus")
  /\ SMB.prepare_data_dir "/var/lib/ceph/fsid/smb.tank" 0 0
       (SMB.attributes Sample.ctx Sample.ident (Sample.raw ["bogus"] "tank")
          (None, None) None)
     = Raise (Error "invalid instance features: bogus").
Proof.
  split; [reflexivity |].
  destruct (validation_error_propagates "" (fun cargs _ _ => cargs) Sample.ctx
              (SMB.attributes Sample.ctx Sample.ident
                 (Sample.raw ["bogus"] "tank") (None, None) None)
              (Error "invalid instance features: bogus") eq_refl)
    as (_ & _ & Hprep & _).
  apply Hprep.
Defined.

(** ** Invariants of the layout *)

(** X13. In every layout the names of the containers (init, primary and
    supplemental together) are pairwise distinct, so no two containers of an
    instance get the same sub-identity. *)
Theorem layout_names_distinct (c : Config) :
  NoDup (map name (init_containers (build_layout c)
                   ++ primary (build_layout c) :: supplemental (build_layout c)))
  /\ NoDup (map (from_parent (identity c))
              (map name (init_containers (build_layout c)
                         ++ primary (build_layout c)
                            :: supplemental (build_layout c)))).
Proof.
  assert (Hnames :
    NoDup (map name (init_containers (build_layout c)
                     ++ primary (build_layout c) :: supplemental (build_layout c)))).
  { unfold build_layout.
    destruct (domain_member c), (clustered c),
      (Py.str_bool (Py.strip (metrics_image c)) && (metrics_port c >? 0));
      apply (bool_decide_unpack _); reflexivity. }
  split; [done |].
  apply NoDup_fmap_2; [| done]. intros a b Hab. by injection Hab.
Qed.

Lemma lstrip_not_starting (s : string) :
  not_starting_with Py.isspace (Py.lstrip s) = true.
Proof.
  induction s as [| ch s IH]; simpl; [done |].
  destruct (Py.isspace ch) eqn:Hch; [done |]. simpl. by rewrite Hch.
Qed.

Lemma rstrip_not_ending (s : string) :
  not_ending_with Py.isspace (Py.rstrip s) = true.
Proof.
  induction s as [| ch s IH]; simpl; [done |].
  destruct (Py.rstrip s) as [| ch' r] eqn:Hr.
  - destruct (Py.isspace ch) eqn:Hch; simpl; [done | by rewrite Hch].
  - done.
Qed.

Lemma rstrip_keeps_start (s : string) :
  not_starting_with Py.isspace s = true ->
  not_starting_with Py.isspace (Py.rstrip s) = true.
Proof.
  destruct s as [| ch s]; simpl; [done |]. intros Hch.
  destruct (Py.rstrip s); [| exact Hch].
  destruct (Py.isspace ch) eqn:E; simpl; [discriminate | by rewrite E].
Qed.

Lemma strip_trimmed (s : string) :
  not_starting_with Py.isspace (Py.strip s) = true
  /\ not_ending_with Py.isspace (Py.strip s) = true.
Proof.
  unfold Py.strip. split.
  - apply rstrip_keeps_start, lstrip_not_starting.
  - apply rstrip_not_ending.
Qed.

(** X14. Every container of a layout carries the Config the layout was
    built from, and every init container and the primary are built on the
    samba container.  The smbmetrics sidecar, when present, is the only
    container with an image of its own: the configured metrics image with
    the white space around it removed, which is not empty; it runs with the
    single argument [--port=<metrics_port>] and an empty environment. *)
Theorem layout_containers (c : Config) :
  Forall (fun x => cfg x = c)
    (init_containers (build_layout c)
     ++ primary (build_layout c) :: supplemental (build_layout c))
  /\ Forall (fun x => is_samba_container (cls x) = true /\ image x = "")
       (primary (build_layout c) :: init_containers (build_layout c))
  /\ Forall (fun x =>
               match cls x with
               | SMBMetricsContainer =>
                   image x = Py.strip (metrics_image c)
                   /\ image x <> ""
                   /\ not_starting_with Py.isspace (image x) = true
                   /\ not_ending_with Py.isspace (image x) = true
                   /\ args x = ["--port=" +:+ Py.str (metrics_port c)]
                   /\ envs_list x = []
               | _ => image x = "" /\ is_samba_container (cls x) = true
               end)
       (supplemental (build_layout c)).
Proof.
  destruct (strip_trimmed (metrics_image c)) as [Hstart Hend].
  unfold build_layout.
  destruct (domain_member c), (clustered c),
    (Py.str_bool (Py.strip (metrics_image c)) && (metrics_port c >? 0)) eqn:Hm;
    simpl;
    (split; [repeat constructor | split; [repeat constructor |]]);
    repeat first [apply Forall_nil_2 | apply Forall_cons_2];
    try (by split);
    apply andb_prop in Hm as [Himg Hport];
    unfold new_with_image; cbn [cls image];
    (split; [done |]); (split; [by apply str_bool_nonempty |]);
    (split; [done |]); (split; [done |]);
    (split; [| done]); unfold args; cbn [cls cfg]; by rewrite Hport.
Qed.

(** ** Resolved devices and the descriptor *)

Lemma convert_destinations (self : _NetworkMapper.t) (addr : ClusterPublicIP) :
  destinations (_NetworkMapper._convert self addr)
  = concat (map (fun net => default [] (_NetworkMapper._networks self !! net))
                (destinations addr)).
Proof. unfold _NetworkMapper._convert. simpl. by rewrite foldl_networks. Qed.

(** X15. A device is among the resolved interfaces of an address exactly
    when it is registered under one of the address's destination networks;
    resolving distributes over the concatenation of destination lists; and
    a mapper whose inventory was never loaded resolves every address to no
    interface. *)
Theorem convert_devices (self : _NetworkMapper.t) (ctx : CephadmContext)
    (a : string) (d1 d2 : list string) (dev : string) :
  (dev ∈ destinations (_NetworkMapper._convert self (mkClusterPublicIP a d1))
   <-> exists net devs,
         net ∈ d1 /\ _NetworkMapper._networks self !! net = Some devs /\ dev ∈ devs)
  /\ destinations (_NetworkMapper._convert self (mkClusterPublicIP a (d1 ++ d2)))
     = destinations (_NetworkMapper._convert self (mkClusterPublicIP a d1))
       ++ destinations (_NetworkMapper._convert self (mkClusterPublicIP a d2))
  /\ destinations
       (_NetworkMapper._convert (_NetworkMapper.__init__ ctx)
          (mkClusterPublicIP a d1))
     = [].
Proof.
  rewrite !convert_destinations. cbn [destinations]. split; [| split].
  - induction d1 as [| n d1 IH]; simpl.
    + split; [by intros ?%elem_of_nil |].
      intros (net & devs & Hin & _). by apply elem_of_nil in Hin.
    + rewrite elem_of_app, IH. split.
      * intros [Hdev | (net & devs & Hin & Hnet & Hdev)].
        -- destruct (_NetworkMapper._networks self !! n) as [devs |] eqn:Hn;
             simpl in Hdev; [| by apply elem_of_nil in Hdev].
           exists n, devs. split; [apply elem_of_cons; by left | done].
        -- exists net, devs. split; [apply elem_of_cons; by right | done].
      * intros (net & devs & [-> | Hin]%elem_of_cons & Hnet & Hdev).
        -- left. by rewrite Hnet.
        -- right. by exists net, devs.
  - by rewrite map_app, concat_app.
  - induction d1 as [| n d1 IH]; [done |]. simpl.
    by rewrite lookup_empty.
Qed.

Lemma for_sambacc_eq (self : _NetworkMapper.t) (c : Config) :
  _NetworkMapper.for_sambacc self c
  = map (fun a =>
           Json.Obj
             [("address", Json.Str (address a));
              ("interfaces",
               Json.of_strs
                 (concat (map (fun net =>
                                 default [] (_NetworkMapper._networks self !! net))
                              (destinations a))))])
        (cluster_public_addrs c).
Proof.
  unfold _NetworkMapper.for_sambacc.
  destruct (cluster_public_addrs c) as [| a l]; [done |]. simpl negb. cbv iota.
  rewrite map_map. apply map_ext. intros a0.
  by rewrite convert_destinations.
Qed.

(** X16. The cluster descriptor: its version marker is [v0]; under [ctdb]
    it gives the cluster meta URI, the node-list command
    [/usr/bin/samba-container ctdb-list-nodes], one public address record
    per configured address, in order, each with its address and the devices
    of its attached destination networks (an empty list when no address is
    configured), and a [log_level] exactly when a ctdb log level is set. *)
Theorem descriptor_fields (self : SMB.t) (c : Config) :
  Json.member "samba-container-config" (SMB.ctdb_stub_config self c)
  = Some (Json.Str "v0")
  /\ Json.member "ctdb" (SMB.ctdb_stub_config self c) ≫= Json.member "cluster_meta_uri"
     = Some (Json.Str (cluster_meta_uri c))
  /\ Json.member "ctdb" (SMB.ctdb_stub_config self c) ≫= Json.member "nodes_cmd"
     = Some (Json.Str "/usr/bin/samba-container ctdb-list-nodes")
  /\ Json.member "ctdb" (SMB.ctdb_stub_config self c) ≫= Json.member "public_addresses"
     = Some (Json.Arr
               (map (fun a =>
                       Json.Obj
                         [("address", Json.Str (address a));
                          ("interfaces",
                           Json.of_strs
                             (concat
                                (map (fun net =>
                                        default []
                                          (_NetworkMapper._networks
                                             (SMB._network_mapper self) !! net))
                                     (destinations a))))])
                    (cluster_public_addrs c)))
  /\ Json.member "ctdb" (SMB.ctdb_stub_config self c) ≫= Json.member "log_level"
     = (if Py.str_bool (ctdb_log_level c)
        then Some (Json.Str (ctdb_log_level c)) else None).
Proof.
  unfold SMB.ctdb_stub_config. rewrite for_sambacc_eq.
  destruct (Py.str_bool (ctdb_log_level c)); repeat split; reflexivity.
Qed.

(** ** Mounts *)

Lemma append_inj_l (d a b : string) : d +:+ a = d +:+ b -> a = b.
Proof.
  induction d as [| ch d IH]; [done |].
  rewrite !append_cons_str. intros [= H]. by apply IH.
Qed.

Lemma getitem_setitem_ne {V} (k k' : string) (v : V) (d : Py.odict V) :
  k <> k' -> Py.getitem k (Py.setitem k' v d) = Py.getitem k d.
Proof. intros Hne. rewrite getitem_setitem. by destruct (decide (k = k')). Qed.

Lemma getitem_setitem_eq {V} (k : string) (v : V) (d : Py.odict V) :
  Py.getitem k (Py.setitem k v d) = Some v.
Proof. rewrite getitem_setitem. by destruct (decide (k = k)). Qed.

Lemma mount_key_ne (d a b : string) :
  a <> b -> d +:+ "/" +:+ a <> d +:+ "/" +:+ b.
Proof.
  intros Hne Heq. apply append_inj_l in Heq.
  apply (append_inj_l "/") in Heq. done.
Qed.

(** X17. On a validated object the mount hook maps, under the daemon's data
    directory, the five samba mount points and, exactly when clustered, the
    five CTDB ones (among them the shared [smb.conf]) to their targets,
    overriding what the caller's mapping held under these keys; every other
    entry of the caller's mapping is kept, and the object is unchanged. *)
Theorem container_mounts (ctx : CephadmContext) (self : SMB.t) (c : Config)
    (mounts : Py.odict string) :
  SMB._instance_cfg self = Some c ->
  exists mounts',
    SMB.customize_container_mounts ctx mounts self = Ok (mounts', self)
    /\ (forall sub target,
          (sub, target) ∈ samba_mounts ++ (if clustered c then ctdb_mounts else []) ->
          Py.getitem
            (DaemonIdentity.data_dir (SMB._identity self) (ctx_data_dir ctx)
             +:+ "/" +:+ sub) mounts'
          = Some target)
    /\ (forall k,
          (forall sub target,
             (sub, target) ∈ samba_mounts ++ (if clustered c then ctdb_mounts else []) ->
             k <> DaemonIdentity.data_dir (SMB._identity self) (ctx_data_dir ctx)
                  +:+ "/" +:+ sub) ->
          Py.getitem k mounts' = Py.getitem k mounts).
Proof.
  intros Hc. unfold SMB.customize_container_mounts, bind.
  rewrite (validate_validated self c Hc). unfold read at 1. cbv beta iota.
  rewrite (_cfg_validated self c Hc). cbn [path_str].
  set (dd := DaemonIdentity.data_dir (SMB._identity self) (ctx_data_dir ctx)).
  destruct (clustered c); eexists; (split; [reflexivity |]); split.
  - intros sub target Hin. unfold samba_mounts, ctdb_mounts in Hin. simpl in Hin.
    repeat (apply elem_of_cons in Hin as [[= -> ->] | Hin]);
      [.. | by apply elem_of_nil in Hin];
      repeat first
        [ apply getitem_setitem_eq
        | rewrite getitem_setitem_ne by (apply mount_key_ne; discriminate) ].
  - intros k Hk.
    repeat (rewrite getitem_setitem_ne;
            [| eapply Hk; unfold samba_mounts, ctdb_mounts; simpl;
               repeat first [apply list_elem_of_here | apply list_elem_of_further]]).
    done.
  - intros sub target Hin. unfold samba_mounts in Hin. rewrite app_nil_r in Hin.
    repeat (apply elem_of_cons in Hin as [[= -> ->] | Hin]);
      [.. | by apply elem_of_nil in Hin];
      repeat first
        [ apply getitem_setitem_eq
        | rewrite getitem_setitem_ne by (apply mount_key_ne; discriminate) ].
  - intros k Hk.
    repeat (rewrite getitem_setitem_ne;
            [| eapply Hk; unfold samba_mounts; simpl;
               repeat first [apply list_elem_of_here | apply list_elem_of_further]]).
    done.
Qed.

Lemma container_mounts_witness :
  exists mounts',
    SMB.customize_container_mounts Sample.ctx [("/etc/hosts", "/etc/hosts:ro")]
      (Sample.validated (Sample.cfg false true "" 0 0))
    = Ok (mounts', Sample.validated (Sample.cfg false true "" 0 0))
    /\ Py.getitem "/var/lib/ceph/fsid/smb.tank/ctdb/smb.conf" mounts'
       = Some "/etc/samba/smb.conf:z".
Proof.
  destruct (container_mounts Sample.ctx
              (Sample.validated (Sample.cfg false true "" 0 0))
              (Sample.cfg false true "" 0 0)
              [("/etc/hosts", "/etc/hosts:ro")] eq_refl)
    as (mounts' & Hrun & Hset & _).
  exists mounts'. split; [exact Hrun |].
  apply (Hset "ctdb/smb.conf" "/etc/samba/smb.conf:z").
  unfold samba_mounts, ctdb_mounts. simpl.
  repeat first [apply list_elem_of_here | apply list_elem_of_further].
Defined.

(** ** The data directory *)

(** X18. Preparing the data directory of a validated object creates, with
    the given owner and mode 0770, [etc-samba-container], [lib-samba] and
    [run], and when clustered the four CTDB directories after them; it
    populates the configured files exactly when there are any; it writes no
    file unless clustered, and then exactly [ctdb.json] followed by the
    two-line [ctdb/smb.conf]; the object is unchanged. *)
Theorem data_dir_prepared (self : SMB.t) (c : Config) (dir : string)
    (uid gid : Z) :
  SMB._instance_cfg self = Some c ->
  exists ops,
    SMB.prepare_data_dir dir uid gid self = Ok (ops, self)
    /\ made_dirs ops
       = [Div (PathOf dir) "etc-samba-container"; Div (PathOf dir) "lib-samba";
          Div (PathOf dir) "run"]
         ++ (if clustered c
             then [Div (PathOf dir) "ctdb/persistent"; Div (PathOf dir) "ctdb/run";
                   Div (PathOf dir) "ctdb/volatile"; Div (PathOf dir) "ctdb/etc"]
             else [])
    /\ Forall (fun op =>
                 match op with
                 | SMB.makedirs _ u g m => u = uid /\ g = gid /\ m = 504
                 | SMB.populate_files d _ u g => d = dir /\ u = uid /\ g = gid
                 | SMB.write_new _ _ => True
                 end) ops
    /\ populated ops = (if Py.list_bool (SMB._files self) then [SMB._files self] else [])
    /\ written ops
       = (if clustered c
          then [(Div (Div (PathOf dir) "etc-samba-container") "ctdb.json",
                 Json.dumps (SMB.ctdb_stub_config self c));
                (Div (PathOf dir) "ctdb/smb.conf",
                 "[global]" +:+ SMB.newline +:+ "config backend = registry"
                 +:+ SMB.newline)]
          else []).
Proof.
  intros Hc. unfold SMB.prepare_data_dir, bind.
  rewrite (validate_validated self c Hc). unfold read at 1. cbv beta iota.
  rewrite (_cfg_validated self c Hc).
  destruct (clustered c).
  - unfold SMB._write_ctdb_stub_config, bind.
    rewrite (_cfg_validated self c Hc). unfold read, SMB._write_smb_conf_stub, ret.
    eexists. split; [reflexivity |].
    destruct (Py.list_bool (SMB._files self));
      (split; [reflexivity |]); (split; [by repeat constructor |]);
      split; reflexivity.
  - unfold ret. eexists. split; [reflexivity |].
    destruct (Py.list_bool (SMB._files self));
      (split; [reflexivity |]); (split; [by repeat constructor |]);
      split; reflexivity.
Qed.

Lemma data_dir_prepared_witness :
  exists ops,
    SMB.prepare_data_dir "/var/lib/ceph/fsid/smb.tank" 0 0
      (Sample.validated (Sample.cfg true false "" (-1) (-1)))
    = Ok (ops, Sample.validated (Sample.cfg true false "" (-1) (-1)))
    /\ written ops = []
    /\ length (made_dirs ops) = 3%nat.
Proof.
  destruct (data_dir_prepared (Sample.validated (Sample.cfg true false "" (-1) (-1)))
              (Sample.cfg true false "" (-1) (-1))
              "/var/lib/ceph/fsid/smb.tank" 0 0 eq_refl)
    as (ops & Hrun & Hdirs & _ & _ & Hw).
  exists ops. split; [exact Hrun |]. split; [exact Hw |].
  rewrite Hdirs. reflexivity.
Defined.

(** ** Endpoints, once more *)

(** X19. After the endpoint hook the list has an endpoint on the SMB port
    and, when the metrics port is positive, one on the metrics port; at most
    two endpoints were added; and running the hook again changes nothing. *)
Theorem endpoints_hook_idempotent (self : SMB.t) (endpoints : list EndPoint) :
  Exists (fun ep => port ep = SMB.smb_port self)
    (SMB.customize_container_endpoints self endpoints)
  /\ (SMB.metrics_port self > 0 ->
      Exists (fun ep => port ep = SMB.metrics_port self)
        (SMB.customize_container_endpoints self endpoints))
  /\ (length (SMB.customize_container_endpoints self endpoints)
      <= length endpoints + 2)%nat
  /\ SMB.customize_container_endpoints self
       (SMB.customize_container_endpoints self endpoints)
     = SMB.customize_container_endpoints self endpoints.
Proof.
  assert (Hex : forall p l,
            existsb (fun ep => port ep =? p) l = true
            <-> Exists (fun ep => port ep = p) l).
  { intros p l. rewrite existsb_exists, Exists_exists. split.
    - intros (ep & Hin & Heq). exists ep. split; [by apply list_elem_of_In |].
      by apply Z.eqb_eq.
    - intros (ep & Hin & Heq). exists ep. split; [by apply list_elem_of_In |].
      by apply Z.eqb_eq. }
  assert (Hlast : forall p (l : list EndPoint),
            existsb (fun ep => port ep =? p) (l ++ [mkEndPoint "0.0.0.0" p]) = true).
  { intros p l. rewrite existsb_app. simpl. rewrite Z.eqb_refl.
    by rewrite orb_true_r. }
  assert (Hmono : forall p q (l : list EndPoint),
            existsb (fun ep => port ep =? p) l = true ->
            existsb (fun ep => port ep =? p) (l ++ [mkEndPoint "0.0.0.0" q]) = true).
  { intros p q l H. rewrite existsb_app, H. done. }
  unfold SMB.customize_container_endpoints.
  destruct (existsb (fun ep => port ep =? SMB.smb_port self) endpoints) eqn:Hsmb;
    cbn [negb];
    destruct (SMB.metrics_port self >? 0) eqn:Hpos;
    try (match goal with
         | |- context [existsb (fun ep => port ep =? SMB.metrics_port self) ?l] =>
             destruct (existsb (fun ep => port ep =? SMB.metrics_port self) l)
               eqn:Hmet
         end);
    cbn [negb];
    rewrite ?Hlast, ?Hsmb, ?Hpos, ?Hmet, ?(Hmono _ _ _ (Hlast _ _)),
      ?(Hmono _ _ _ Hmet), ?(Hmono _ _ _ Hsmb); cbn [negb];
    rewrite ?Hlast, ?Hsmb, ?Hpos, ?Hmet, ?(Hmono _ _ _ (Hlast _ _)); cbn [negb];
    rewrite <- !Hex, ?Hlast, ?Hsmb, ?Hmet, ?(Hmono _ _ _ (Hlast _ _)),
      ?(Hmono _ _ _ Hsmb), ?length_app; simpl;
    (split; [done |]); (split; [| split; [lia | done]]);
    intros Hgt; try done;
    apply Z.gt_lt, Z.gtb_lt in Hgt; congruence.
Qed.

(** ** The containers handed to the framework *)

Lemma for_each_pure {A B} (f : A -> M SMB.t B) (g : A -> B) (s : SMB.t)
    (l : list A) :
  (forall x, f x s = Ok (g x, s)) -> SMB.for_each f l s = Ok (map g l, s).
Proof.
  intros Hf. induction l as [| x l IH]; simpl; [done |].
  unfold bind. by rewrite Hf, IH.
Qed.

Lemma to_init_container_validated (default_image : string)
    (ctx : CephadmContext) (self : SMB.t) (c : Config) :
  SMB._instance_cfg self = Some c ->
  exists m,
    forall x,
      SMB._to_init_container default_image ctx x self
      = Ok ({| SMB.ic_entrypoint := "";
               SMB.ic_image := SMB.str_or (ctx_image ctx) default_image;
               SMB.ic_identity := from_parent (SMB._identity self) (name x);
               SMB.ic_args := args x;
               SMB.ic_container_args := container_args x;
               SMB.ic_envs := envs_list x;
               SMB.ic_volume_mounts := m |}, self).
Proof.
  intros Hc.
  destruct (customize_container_mounts_validated self c ctx [] Hc) as [m0 Hm].
  eexists. intros x. unfold SMB._to_init_container, bind. rewrite Hm.
  reflexivity.
Qed.


(** X20. On a validated object the init containers handed to the framework
    follow the layout's init list in order: their sub-identities are
    [config], then [mustjoin] if domain_member, then [ctdbMigrate] and
    [ctdbMustHaveNode] if clustered; each gets its role's arguments, flags
    and environment, an empty entrypoint, the context's image (the default
    image if there is none) and one and the same mount mapping; the layout
    is cached by the call. *)
Theorem init_containers_built (default_image : string) (ctx : CephadmContext)
    (self : SMB.t) (c : Config) :
  SMB._instance_cfg self = Some c ->
  SMB._cached_layout self = None ->
  exists ics m,
    SMB.init_containers default_image ctx self
    = Ok (ics, SMB.set_cached_layout (build_layout c) self)
    /\ map (fun ic => subcomponent (SMB.ic_identity ic)) ics
       = ["config"]
         ++ (if domain_member c then ["mustjoin"] else [])
         ++ (if clustered c then ["ctdbMigrate"; "ctdbMustHaveNode"] else [])
    /\ map (fun ic => (SMB.ic_args ic, SMB.ic_container_args ic, SMB.ic_envs ic)) ics
       = map (fun x => (args x, container_args x, envs_list x))
             (init_containers (build_layout c))
    /\ Forall (fun ic =>
                 SMB.ic_entrypoint ic = ""
                 /\ SMB.ic_image ic = SMB.str_or (ctx_image ctx) default_image
                 /\ parent (SMB.ic_identity ic) = SMB._identity self
                 /\ SMB.ic_volume_mounts ic = m) ics.
Proof.
  intros Hc Hnone.
  assert (Hc' : SMB._instance_cfg (SMB.set_cached_layout (build_layout c) self)
                = Some c) by done.
  destruct (to_init_container_validated default_image ctx _ c Hc') as [m Hto].
  eexists _, m. unfold SMB.init_containers, bind.
  rewrite (_layout_fresh self c Hc Hnone).
  rewrite (for_each_pure _ _ _ _ Hto).
  split; [reflexivity |]. rewrite !map_map. cbn [SMB.ic_identity subcomponent
    SMB.ic_args SMB.ic_container_args SMB.ic_envs].
  split; [| split; [done |]].
  - unfold build_layout. by destruct (domain_member c), (clustered c).
  - apply Forall_forall. intros ic (x & -> & _)%list_elem_of_fmap. done.
Qed.

Lemma init_containers_built_witness :
  exists ics m,
    SMB.init_containers "default-image" Sample.ctx
      (Sample.validated (Sample.cfg true true "" 0 0))
    = Ok (ics,
          SMB.set_cached_layout (build_layout (Sample.cfg true true "" 0 0))
            (Sample.validated (Sample.cfg true true "" 0 0)))
    /\ map (fun ic => subcomponent (SMB.ic_identity ic)) ics
       = ["config"; "mustjoin"; "ctdbMigrate"; "ctdbMustHaveNode"]
    /\ Forall (fun ic =>
                 SMB.ic_image ic = "quay.io/samba.org/samba-server:latest"
                 /\ SMB.ic_volume_mounts ic = m) ics.
Proof.
  destruct (init_containers_built "default-image" Sample.ctx
              (Sample.validated (Sample.cfg true true "" 0 0))
              (Sample.cfg true true "" 0 0) eq_refl eq_refl)
    as (ics & m & Hrun & Hnames & _ & Hall).
  exists ics, m. split; [exact Hrun |]. split; [exact Hnames |].
  eapply Forall_impl; [exact Hall |]. intros ic (_ & Himg & _ & Hm). by split.
Defined.



(** ** The hooks of the primary container *)

Lemma smbd_args_eq (c : Config) :
  args (new SMBDContainer c)
  = SambaContainerCommon_.args (new SMBDContainer c)
    ++ ["run"]
    ++ (if clustered c
        then ["--setup=" +:+ (if domain_member c then "nsswitch" else "users");
              "--setup=smb_ctdb"; "--wait-for=ctdb"]
        else [])
    ++ ["smbd"].
Proof.
  unfold args. cbn [cls cfg new].
  destruct (clustered c); by rewrite <- ?app_assoc.
Qed.

(** X22. On a validated object the three hooks of the primary container
    keep the caller's list and append to it the process arguments, the
    environment and the container flags of smbd; they give the same result
    whether or not the layout was computed before.  The process arguments
    end with [smbd]; when clustered they wait for CTDB and set up
    [nsswitch] for a domain member and [users] otherwise. *)
Theorem primary_hooks (self : SMB.t) (c : Config) (l : list string) :
  SMB._instance_cfg self = Some c ->
  SMB._cached_layout self = None ->
  SMB.customize_process_args l self
  = Ok (l ++ args (new SMBDContainer c),
        SMB.set_cached_layout (build_layout c) self)
  /\ SMB.customize_container_envs l self
     = Ok (l ++ envs_list (new SMBDContainer c),
           SMB.set_cached_layout (build_layout c) self)
  /\ SMB.customize_container_args l self
     = Ok (l ++ container_args (new SMBDContainer c),
           SMB.set_cached_layout (build_layout c) self)
  /\ SMB.customize_process_args l (SMB.set_cached_layout (build_layout c) self)
     = Ok (l ++ args (new SMBDContainer c),
           SMB.set_cached_layout (build_layout c) self)
  /\ SMB.customize_container_envs l (SMB.set_cached_layout (build_layout c) self)
     = Ok (l ++ envs_list (new SMBDContainer c),
           SMB.set_cached_layout (build_layout c) self)
  /\ SMB.customize_container_args l (SMB.set_cached_layout (build_layout c) self)
     = Ok (l ++ container_args (new SMBDContainer c),
           SMB.set_cached_layout (build_layout c) self)
  /\ last (args (new SMBDContainer c)) = Some "smbd"
  /\ (clustered c = true ->
      "--wait-for=ctdb" ∈ args (new SMBDContainer c)
      /\ ("--setup=" +:+ (if domain_member c then "nsswitch" else "users"))
           ∈ args (new SMBDContainer c)).
Proof.
  intros Hc Hnone.
  unfold SMB.customize_process_args, SMB.customize_container_envs,
    SMB.customize_container_args, bind.
  rewrite (_layout_fresh self c Hc Hnone), build_layout_primary.
  rewrite (_layout_memoized (SMB.set_cached_layout (build_layout c) self)
             (build_layout c) eq_refl), build_layout_primary.
  split; [done |]. split; [done |]. split; [done |]. split; [done |].
  split; [done |]. split; [done |].
  rewrite smbd_args_eq. split.
  - by rewrite !app_assoc, last_snoc.
  - intros ->. rewrite !elem_of_app. split.
    + right. right. left. set_solver.
    + right. right. left. apply elem_of_cons. by left.
Qed.

Lemma primary_hooks_witness :
  SMB.customize_process_args ["--foreground"]
    (Sample.validated (Sample.cfg false true "" 0 0))
  = Ok (["--foreground"; "run"; "--setup=users"; "--setup=smb_ctdb";
         "--wait-for=ctdb"; "smbd"],
        SMB.set_cached_layout (build_layout (Sample.cfg false true "" 0 0))
          (Sample.validated (Sample.cfg false true "" 0 0))).
Proof.
  exact (proj1 (primary_hooks (Sample.validated (Sample.cfg false true "" 0 0))
                  (Sample.cfg false true "" 0 0) ["--foreground"]
                  eq_refl eq_refl)).
Defined.
